(** * opencode-claude-mem: session tracker, hook adapter and worker client

    A shallow embedding of [src/index.ts] (the plugin factory and its hooks)
    and of [src/worker-client.ts] (the HTTP client of the memory worker).

    - The closure variables of the plugin ([contextCache], [workerHealthy],
      [initToastShown], [currentSessionId], [initializedSessions]) are the
      fields of [State].
    - Every call that leaves the process ([fetch], [client.tui.showToast],
      [client.session.prompt], [client.session.messages]) is recorded in a
      trace of [Effect]s; what the outside world answers to the call number
      [i] of a run is read from the context ([fetch_at], [host_at]), so a
      statement quantified over the context covers every behaviour of the
      worker and of the host.
    - Code that can throw lives in the monad [M], with [try_catch] for the
      [try { } catch { }] blocks of the source.
    - Strings are the UTF-8 text of the JavaScript strings.
    - In [M] an awaited call is answered at once, so a hook runs to its end
      before the next one starts: [run_hooks] is the run of hook invocations
      that do not overlap. The host may start a hook while another one is
      suspended at an [await]; that run is the one of [Async] and [Pool],
      where every await of a worker or host call is a point at which other
      hooks run on the same state. *)

From Stdlib Require Import ZArith Ascii String List Bool Lia.
From stdpp Require Import base decidable option list gmap strings.
Import ListNotations.
Local Open Scope string_scope.
Local Open Scope list_scope.

(** ** JavaScript strings *)

Module JsString.

Definition code (c : ascii) : nat := nat_of_ascii c.

(** White space and line terminators removed by [String.prototype.trim],
    by the length of their UTF-8 encoding. One byte: U+0009..U+000D and
    U+0020. *)
Definition ws1 (c : ascii) : bool :=
  (((9 <=? code c) && (code c <=? 13)) || (code c =? 32))%nat.

(** Two bytes: U+00A0. *)
Definition ws2 (c1 c2 : ascii) : bool :=
  ((code c1 =? 194) && (code c2 =? 160))%nat.

(** Three bytes: U+1680, U+2000..U+200A, U+2028, U+2029, U+202F, U+205F,
    U+3000 and U+FEFF. *)
Definition ws3 (c1 c2 c3 : ascii) : bool :=
  (((code c1 =? 225) && (code c2 =? 154) && (code c3 =? 128))
  || ((code c1 =? 226) && (code c2 =? 128)
      && (((128 <=? code c3) && (code c3 <=? 138))
          || (code c3 =? 168) || (code c3 =? 169) || (code c3 =? 175)))
  || ((code c1 =? 226) && (code c2 =? 129) && (code c3 =? 159))
  || ((code c1 =? 227) && (code c2 =? 128) && (code c3 =? 128))
  || ((code c1 =? 239) && (code c2 =? 187) && (code c3 =? 191)))%nat.

(** Drops leading white space. With [back = true] the string is read from
    its end (it was reversed), so the bytes of a character come in the
    opposite order. *)
Fixpoint strip (back : bool) (s : string) : string :=
  match s with
  | String c1 r1 =>
      if ws1 c1 then strip back r1 else
      match r1 with
      | String c2 r2 =>
          if (if back then ws2 c2 c1 else ws2 c1 c2) then strip back r2 else
          match r2 with
          | String c3 r3 =>
              if (if back then ws3 c3 c2 c1 else ws3 c1 c2 c3)
              then strip back r3 else s
          | EmptyString => s
          end
      | EmptyString => s
      end
  | EmptyString => s
  end.

Definition trimStart (s : string) : string := strip false s.
Definition trimEnd (s : string) : string := String.rev (strip true (String.rev s)).
Definition trim (s : string) : string := trimEnd (trimStart s).

(** [parts.join(sep)]. *)
Fixpoint join (sep : string) (l : list string) : string :=
  match l with
  | [] => EmptyString
  | [x] => x
  | x :: rest => x +:+ sep +:+ join sep rest
  end.

(** [s.slice(0, n)]: the first [n] UTF-16 code units of [s]. A byte
    [10xxxxxx] continues the character before it and goes where that one
    goes; a leading byte below [0xF0] starts a character of one code unit,
    one from [0xF0] a character of two (a surrogate pair). A pair that the
    cut would split is left out, the lone surrogate having no UTF-8 text. *)
Fixpoint slice_prefix (n : nat) (s : string) : string :=
  match s with
  | EmptyString => EmptyString
  | String c rest =>
      if ((128 <=? code c) && (code c <? 192))%nat then String c (slice_prefix n rest)
      else if (code c <? 240)%nat then
        match n with
        | O => EmptyString
        | S n' => String c (slice_prefix n' rest)
        end
      else
        match n with
        | S (S n') => String c (slice_prefix n' rest)
        | _ => EmptyString
        end
  end.

(** [s.split(/[\\/]/)]: the segments between slashes and backslashes. *)
Definition is_separator (c : ascii) : bool := ((code c =? 47) || (code c =? 92))%nat.

Fixpoint split_path (s : string) : list string :=
  match s with
  | EmptyString => [EmptyString]
  | String c rest =>
      if is_separator c then EmptyString :: split_path rest
      else match split_path rest with
           | seg :: segs => String c seg :: segs
           | [] => [String c EmptyString]
           end
  end.

(** JavaScript truthiness of a string. *)
Definition truthy (s : string) : bool := negb (String.eqb s EmptyString).

(** [segments.findLast(Boolean)]. *)
Definition findLast_truthy (segments : list string) : option string :=
  last (List.filter truthy segments).

End JsString.

(** JavaScript truthiness of a value that is a string or [undefined]/[null],
    and [a || b] on such values. *)
Definition truthy_str (o : option string) : bool :=
  match o with
  | Some s => JsString.truthy s
  | None => false
  end.

Definition or_str (a b : option string) : option string :=
  if truthy_str a then a else b.

(** ** JSON values and [JSON.stringify(value, null, 2)] *)

(** A value as [response.json()] returns it. A number is kept as the text
    JavaScript prints for it ([JNum "1.5"]): the payloads are never computed
    with, only printed back. The members of an object are in property
    order and have distinct keys. *)
#[warnings="-register-all"]
Inductive JSON : Type :=
| JNull
| JBool (b : bool)
| JNum (lit : string)
| JStr (s : string)
| JArr (items : list JSON)
| JObj (members : list (string * JSON)).

Module Json.

Definition dquote : ascii := ascii_of_nat 34.
Definition backslash : ascii := ascii_of_nat 92.
Definition newline : string := String (ascii_of_nat 10) EmptyString.

Definition hex_digit (n : nat) : ascii :=
  if (n <? 10)%nat then ascii_of_nat (48 + n) else ascii_of_nat (87 + n).

(** One character of [QuoteJSONString]. *)
Definition escape (c : ascii) : string :=
  let n := nat_of_ascii c in
  let esc (x : string) := String backslash x in
  if (n =? 34)%nat then esc (String dquote EmptyString)
  else if (n =? 92)%nat then esc (String backslash EmptyString)
  else if (n =? 8)%nat then esc "b"
  else if (n =? 12)%nat then esc "f"
  else if (n =? 10)%nat then esc "n"
  else if (n =? 13)%nat then esc "r"
  else if (n =? 9)%nat then esc "t"
  else if (n <? 32)%nat then
    esc ("u00" +:+ String (hex_digit (n / 16)) (String (hex_digit (n mod 16)) EmptyString))
  else String c EmptyString.

Fixpoint escape_all (s : string) : string :=
  match s with
  | EmptyString => EmptyString
  | String c rest => escape c +:+ escape_all rest
  end.

Definition quote (s : string) : string :=
  String dquote (escape_all s +:+ String dquote EmptyString).

Definition gap : string := "  ".

(** [SerializeJSONProperty] with a gap of two spaces; [indent] is the
    current indentation. *)
Fixpoint serialize (indent : string) (v : JSON) {struct v} : string :=
  match v with
  | JNull => "null"
  | JBool true => "true"
  | JBool false => "false"
  | JNum lit => lit
  | JStr s => quote s
  | JArr items =>
      let stepback := indent in
      let indent := indent +:+ gap in
      match items with
      | [] => "[]"
      | _ =>
          let partial := List.map (serialize indent) items in
          let separator := "," +:+ newline +:+ indent in
          "[" +:+ newline +:+ indent +:+ JsString.join separator partial
          +:+ newline +:+ stepback +:+ "]"
      end
  | JObj members =>
      let stepback := indent in
      let indent := indent +:+ gap in
      match members with
      | [] => "{}"
      | _ =>
          let partial :=
            List.map (fun kv => quote (fst kv) +:+ ": " +:+ serialize indent (snd kv))
                     members in
          let separator := "," +:+ newline +:+ indent in
          "{" +:+ newline +:+ indent +:+ JsString.join separator partial
          +:+ newline +:+ stepback +:+ "}"
      end
  end.

(** [JSON.stringify(data, null, 2)]. *)
Definition stringify (v : JSON) : string := serialize EmptyString v.

(** Truthiness of a value. The number zero prints as [0]. *)
Definition truthy (v : JSON) : bool :=
  match v with
  | JNull => false
  | JBool b => b
  | JNum lit => negb (String.eqb lit "0")
  | JStr s => JsString.truthy s
  | JArr _ | JObj _ => true
  end.

(** [v[key]] for a key that is no built-in property: [None] is
    [undefined]. *)
Fixpoint assoc (key : string) (members : list (string * JSON)) : option JSON :=
  match members with
  | [] => None
  | (k, x) :: rest => if String.eqb k key then Some x else assoc key rest
  end.

Definition get (v : JSON) (key : string) : option JSON :=
  match v with
  | JObj members => assoc key members
  | _ => None
  end.

End Json.

(** ** The outside world *)

Inductive Variant := info | success | warning | error.

(** One element of [client.session.messages(...).data]. *)
Record Part := { part_type : string; part_text : option string }.
Record Message := { role : string; parts : option (list Part) }.

(** The calls that leave the process, with the fields the source sends. *)
Inductive Effect :=
| GetHealth
| PostSessionInit (contentSessionId project prompt : string)
| PostObservation (contentSessionId tool_name : string) (tool_input : JSON)
                  (tool_response cwd : string)
| PostSummarize (contentSessionId last_user_message last_assistant_message : string)
| PostComplete (contentSessionId : string)
| GetContextInject (project : string)
| GetSearch (q project : string)
| ShowToast (message : string) (variant : Variant) (duration : Z)
| SessionPrompt (id text : string)
| SessionMessages (id : string).

(** What [fetch] answers: it rejects with an error (printed as [err]), or it
    resolves to a response whose body parses as JSON or does not. *)
Inductive Body := JsonBody (data : JSON) | BadBody (err : string).
Record Response := { ok : bool; body : Body }.
Inductive FetchOutcome := FetchThrew (err : string) | FetchResponse (r : Response).

(** What a call into the host answers: it throws, or it resolves; [data] is
    the [data] field of the result when that is an array. *)
Inductive HostOutcome := HostThrew (err : string) | HostResult (data : option (list Message)).

(** The plugin context: what the host passes to the plugin factory
    ([project?.worktree], [directory]), the working directory of the process,
    and the answers of the outside world by call number. *)
Record Ctx := {
  worktree : option string;
  directory : option string;
  cwd : string;
  fetch_at : nat -> FetchOutcome;
  host_at : nat -> HostOutcome
}.

(** [directory || process.cwd()]. *)
Definition projectRoot (ctx : Ctx) : string :=
  match directory ctx with
  | Some d => if JsString.truthy d then d else cwd ctx
  | None => cwd ctx
  end.

(** The last non-empty segment of the worktree path, or ['unknown-project']. *)
Definition projectName (ctx : Ctx) : string :=
  match worktree ctx with
  | Some path =>
      if JsString.truthy path then
        match JsString.findLast_truthy (JsString.split_path path) with
        | Some segment => segment
        | None => "unknown-project"
        end
      else "unknown-project"
  | None => "unknown-project"
  end.

(** ** Session tracker state *)

(** [contextCache]: [None] is [undefined], [Some None] is [null]. *)
Record State := {
  contextCache : option (option string);
  workerHealthy : option bool;
  initToastShown : bool;
  currentSessionId : option string;
  initializedSessions : gset string
}.

Record World := { st : State; trace : list Effect }.

Definition init_state : State :=
  {| contextCache := None; workerHealthy := None; initToastShown := false;
     currentSessionId := None; initializedSessions := ∅ |}.

Definition init_world : World := {| st := init_state; trace := [] |}.

Definition set_contextCache (v : option (option string)) (s : State) : State :=
  {| contextCache := v; workerHealthy := workerHealthy s;
     initToastShown := initToastShown s; currentSessionId := currentSessionId s;
     initializedSessions := initializedSessions s |}.

Definition set_workerHealthy (v : option bool) (s : State) : State :=
  {| contextCache := contextCache s; workerHealthy := v;
     initToastShown := initToastShown s; currentSessionId := currentSessionId s;
     initializedSessions := initializedSessions s |}.

Definition set_initToastShown (v : bool) (s : State) : State :=
  {| contextCache := contextCache s; workerHealthy := workerHealthy s;
     initToastShown := v; currentSessionId := currentSessionId s;
     initializedSessions := initializedSessions s |}.

Definition set_currentSessionId (v : option string) (s : State) : State :=
  {| contextCache := contextCache s; workerHealthy := workerHealthy s;
     initToastShown := initToastShown s; currentSessionId := v;
     initializedSessions := initializedSessions s |}.

Definition add_initializedSession (sessionId : string) (s : State) : State :=
  {| contextCache := contextCache s; workerHealthy := workerHealthy s;
     initToastShown := initToastShown s; currentSessionId := currentSessionId s;
     initializedSessions := {[sessionId]} ∪ initializedSessions s |}.

(** ** The monad of hook code: state, trace and exceptions *)

Inductive Res (A : Type) := Ok (a : A) | Throw (e : string).
Arguments Ok {A} a.
Arguments Throw {A} e.

Definition M (A : Type) : Type := World -> Res A * World.

Definition ret {A} (a : A) : M A := fun w => (Ok a, w).

Definition bind {A B} (m : M A) (k : A -> M B) : M B :=
  fun w =>
    match m w with
    | (Ok a, w') => k a w'
    | (Throw e, w') => (Throw e, w')
    end.

Definition throw {A} (e : string) : M A := fun w => (Throw e, w).

(** [try { m } catch (e) { h e }]. *)
Definition try_catch {A} (m : M A) (h : string -> M A) : M A :=
  fun w =>
    match m w with
    | (Ok a, w') => (Ok a, w')
    | (Throw e, w') => h e w'
    end.

Definition gets {A} (f : State -> A) : M A := fun w => (Ok (f (st w)), w).

Definition upd (f : State -> State) (w : World) : World :=
  {| st := f (st w); trace := trace w |}.

Definition modify (f : State -> State) : M unit :=
  fun w => (Ok tt, upd f w).

Notation "'let*' x ':=' m 'in' k" := (bind m (fun x => k))
  (at level 10, x name, m at level 100, k at level 200, only parsing).
Notation "m '>>' k" := (bind m (fun _ => k))
  (at level 90, right associativity, only parsing).

(** The world once one more call has left the process. *)
Definition push (e : Effect) (w : World) : World :=
  {| st := st w; trace := trace w ++ [e] |}.

(** [await fetch(...)]: the request is recorded and answered by the world. *)
Definition fetch (ctx : Ctx) (request : Effect) : M Response :=
  fun w =>
    match fetch_at ctx (length (trace w)) with
    | FetchThrew err => (Throw err, push request w)
    | FetchResponse r => (Ok r, push request w)
    end.

(** [await response.json()]. *)
Definition response_json (r : Response) : M JSON :=
  match body r with
  | JsonBody data => ret data
  | BadBody err => throw err
  end.

(** A call into the host API ([client.tui], [client.session]). *)
Definition host_call (ctx : Ctx) (call : Effect) : M (option (list Message)) :=
  fun w =>
    match host_at ctx (length (trace w)) with
    | HostThrew err => (Throw err, push call w)
    | HostResult data => (Ok data, push call w)
    end.

(** ** [worker-client.ts] *)

Module WorkerClient.

(** The abort signal of the one-second timer makes [fetch] reject, which is
    one of the ways [fetch_at] answers [FetchThrew]. *)
Definition isHealthy (ctx : Ctx) : M bool :=
  try_catch
    (let* response := fetch ctx GetHealth in
     ret (ok response))
    (fun _ => ret false).

Definition ensureRunning (ctx : Ctx) (projectRoot : string) : M bool := isHealthy ctx.

(** The result is the parsed body, or [None] for [null]. *)
Definition sessionInit (ctx : Ctx) (contentSessionId project prompt : string)
  : M (option JSON) :=
  try_catch
    (let* response := fetch ctx (PostSessionInit contentSessionId project prompt) in
     if negb (ok response) then ret None
     else let* data := response_json response in ret (Some data))
    (fun _ => ret None).

Definition sendObservation (ctx : Ctx) (contentSessionId toolName : string)
    (toolInput : JSON) (toolResponse cwd : string) : M unit :=
  try_catch
    (fetch ctx (PostObservation contentSessionId toolName toolInput toolResponse cwd)
     >> ret tt)
    (fun _ => ret tt).

Definition summarize (ctx : Ctx)
    (contentSessionId lastUserMessage lastAssistantMessage : string) : M unit :=
  try_catch
    (fetch ctx (PostSummarize contentSessionId lastUserMessage lastAssistantMessage)
     >> ret tt)
    (fun _ => ret tt).

Definition completeSession (ctx : Ctx) (contentSessionId : string) : M unit :=
  try_catch
    (fetch ctx (PostComplete contentSessionId) >> ret tt)
    (fun _ => ret tt).

(** [typeof data.content === "string"], giving the string. *)
Definition content_string (data : JSON) : option string :=
  match Json.get data "content" with
  | Some (JStr s) => Some s
  | _ => None
  end.

(** The result is a string, or [None] for [null]. *)
Definition getContext (ctx : Ctx) (project : string) : M (option string) :=
  try_catch
    (let* response := fetch ctx (GetContextInject project) in
     if negb (ok response) then ret None
     else
       let* data := response_json response in
       match data with
       | JStr s => ret (Some s)
       | _ =>
           match (if Json.truthy data then content_string data else None) with
           | Some s => ret (Some s)
           | None =>
               let text := Json.stringify data in
               if String.eqb text "{}" || String.eqb text "null"
               then ret None else ret (Some text)
           end
       end)
    (fun _ => ret None).

Definition search (ctx : Ctx) (query project : string) : M string :=
  try_catch
    (let* response := fetch ctx (GetSearch query project) in
     if negb (ok response) then ret "Search failed"
     else
       let* data := response_json response in
       ret (Json.stringify data))
    (fun e => ret ("Error performing search: " +:+ e)).

End WorkerClient.

(** ** [index.ts]: the helpers of the plugin closure *)

(** Best effort, never throws. *)
Definition toast (ctx : Ctx) (message : string) (variant : Variant) (duration : Z)
  : M unit :=
  try_catch
    (host_call ctx (ShowToast message variant duration) >> ret tt)
    (fun _ => ret tt).

Definition sendStatusMessage (ctx : Ctx) (sessionId text : string) : M unit :=
  try_catch
    (host_call ctx (SessionPrompt sessionId text) >> ret tt)
    (fun _ => toast ctx (JsString.slice_prefix 200 text) info 3000).

(** Fetch context once per session (cached after first call). *)
Definition getCachedContext (ctx : Ctx) : M (option string) :=
  let* cache := gets contextCache in
  match cache with
  | Some cached => ret cached
  | None =>
      let* context := WorkerClient.getContext ctx (projectName ctx) in
      modify (set_contextCache (Some context)) >>
      ret context
  end.

(** Truthiness of the health flag ([null] is falsy). *)
Definition truthy_flag (flag : option bool) : bool :=
  match flag with
  | Some b => b
  | None => false
  end.

(** Lazy worker health check + deferred init toast. The result is the flag
    itself, which the callers test for truthiness. *)
Definition checkWorkerAndToast (ctx : Ctx) : M (option bool) :=
  let* flag := gets workerHealthy in
  (match flag with
   | None =>
       let* healthy := WorkerClient.isHealthy ctx in
       modify (set_workerHealthy (Some healthy))
   | Some _ => ret tt
   end) >>
  let* shown := gets initToastShown in
  (if negb shown then
     modify (set_initToastShown true) >>
     let* flag := gets workerHealthy in
     if truthy_flag flag
     then toast ctx ("Memory active · " +:+ projectName ctx) success 3000
     else toast ctx "Worker offline — start Claude Code first" warning 5000
   else ret tt) >>
  gets workerHealthy.

(** [prompt || 'SESSION_START']. *)
Definition prompt_or_default (prompt : option string) : string :=
  match prompt with
  | Some p => if JsString.truthy p then p else "SESSION_START"
  | None => "SESSION_START"
  end.

Definition ensureSessionInit (ctx : Ctx) (sessionId : string) (prompt : option string)
  : M bool :=
  let* initialized := gets initializedSessions in
  if bool_decide (sessionId ∈ initialized) then ret true
  else
    let* isHealthy := checkWorkerAndToast ctx in
    if negb (truthy_flag isHealthy) then ret false
    else
      try_catch
        (WorkerClient.sessionInit ctx sessionId (projectName ctx) (prompt_or_default prompt) >>
         modify (add_initializedSession sessionId) >>
         modify (set_currentSessionId (Some sessionId)) >>
         ret true)
        (fun _ => ret false).

(** [parts] is [None] when it is missing or no array. [omap] keeps the
    [text] of the parts that pass the filter ([type] is ['text'] and [text]
    is a string). *)
Definition extractTextFromParts (parts : option (list Part)) : string :=
  match parts with
  | None => EmptyString
  | Some ps =>
      JsString.trim
        (JsString.join Json.newline
           (omap (fun p => if String.eqb (part_type p) "text" then part_text p else None) ps))
  end.

(** ** [index.ts]: the hooks *)

Record CommandDef := { template : string; description : string }.

(** Hook [config]: the result is [input.command] after the call. *)
Definition config (command : option (gmap string CommandDef))
  : M (gmap string CommandDef) :=
  ret (<["memory" := {| template := "/memory";
                        description := "Show memory context from Claude-Mem" |}]>
         (default ∅ command)).

(** Hook [command.execute.before]. *)
Definition command_execute_before (ctx : Ctx) (command : string)
    (sessionID : option string) : M unit :=
  if negb (String.eqb command "memory") then ret tt
  else
    let* current := gets currentSessionId in
    match or_str sessionID current with
    | None => throw "__MEMORY_NO_SESSION__"
    | Some sessionId =>
        if negb (JsString.truthy sessionId) then throw "__MEMORY_NO_SESSION__"
        else
          let* isHealthy := checkWorkerAndToast ctx in
          if negb (truthy_flag isHealthy) then
            sendStatusMessage ctx sessionId "⚠ Claude-Mem worker is offline" >>
            throw "__MEMORY_HANDLED__"
          else
            let* context := getCachedContext ctx in
            (match context with
             | Some text =>
                 if JsString.truthy text then sendStatusMessage ctx sessionId text
                 else sendStatusMessage ctx sessionId
                        ("No memory context available for " +:+ projectName ctx)
             | None =>
                 sendStatusMessage ctx sessionId
                   ("No memory context available for " +:+ projectName ctx)
             end) >>
            throw "__MEMORY_HANDLED__"
    end.

(** The fields of a host event that the hook reads: [event.type],
    [event.properties?.info?.id] and [event.properties?.sessionID]. *)
Record Event := {
  event_type : string;
  info_id : option string;
  event_sessionID : option string
}.

(** [for (let i = n - 1; i >= 0; i--) if (messages[i].info.role === r) { ...; break }]:
    [n] is [i + 1]; [current] is the value the variable keeps when no message
    has the role. *)
Fixpoint scan_back (r : string) (messages : list Message) (n : nat) (current : string)
  : string :=
  match n with
  | O => current
  | S i =>
      match messages !! i with
      | Some m =>
          if String.eqb (role m) r then extractTextFromParts (parts m)
          else scan_back r messages i current
      | None => current
      end
  end.

(** The [session.created] branch; the result says whether the hook returned
    from inside it. *)
Definition on_session_created (ctx : Ctx) (ev : Event) : M bool :=
  let sessionId := info_id ev in
  if negb (truthy_str sessionId) then ret true
  else
    modify (set_currentSessionId sessionId) >>
    modify (set_contextCache None) >>
    checkWorkerAndToast ctx >>
    ret false.

(** The [session.idle] branch. *)
Definition on_session_idle (ctx : Ctx) (ev : Event) : M unit :=
  let* current := gets currentSessionId in
  match or_str (event_sessionID ev) current with
  | None => ret tt
  | Some sessionId =>
      if negb (JsString.truthy sessionId) then ret tt
      else
        try_catch
          (let* last :=
             try_catch
               (let* data := host_call ctx (SessionMessages sessionId) in
                match data with
                | Some messages =>
                    ret (scan_back "user" messages (length messages) EmptyString,
                         scan_back "assistant" messages (length messages) EmptyString)
                | None => ret (EmptyString, EmptyString)
                end)
               (fun _ => ret (EmptyString, EmptyString)) in
           WorkerClient.summarize ctx sessionId (fst last) (snd last) >>
           WorkerClient.completeSession ctx sessionId >>
           toast ctx "Session summarized" success 2000)
          (fun _ => ret tt)
  end.

(** Hook [event]. *)
Definition event (ctx : Ctx) (ev : Event) : M unit :=
  let* returned :=
    (if String.eqb (event_type ev) "session.created"
     then on_session_created ctx ev else ret false) in
  if returned then ret tt
  else if String.eqb (event_type ev) "session.idle"
       then on_session_idle ctx ev else ret tt.

(** Hook [chat.message]. *)
Definition chat_message (ctx : Ctx) (sessionID : option string)
    (output_parts : option (list Part)) : M unit :=
  match sessionID with
  | Some sessionId =>
      if JsString.truthy sessionId then
        let userPrompt := extractTextFromParts output_parts in
        ensureSessionInit ctx sessionId
          (if JsString.truthy userPrompt then Some userPrompt else None) >>
        ret tt
      else ret tt
  | None => ret tt
  end.

(** Hook [experimental.chat.system.transform]: the result is [output.system]
    after the call. *)
Definition system_transform (ctx : Ctx) (sessionID : option string)
    (system : list string) : M (list string) :=
  (match sessionID with
   | Some sessionId =>
       if JsString.truthy sessionId
       then ensureSessionInit ctx sessionId None >> ret tt
       else ret tt
   | None => ret tt
   end) >>
  let* isHealthy := checkWorkerAndToast ctx in
  if negb (truthy_flag isHealthy) then ret system
  else
    try_catch
      (let* context := getCachedContext ctx in
       match context with
       | Some text =>
           if JsString.truthy text
           then ret (system ++ ["[Claude-Mem] Memory Active. Previous Context:"
                                +:+ Json.newline +:+ text])
           else ret system
       | None => ret system
       end)
      (fun _ => ret system).

(** [input.args || {}]. *)
Definition args_or_empty (args : option JSON) : JSON :=
  match args with
  | Some v => if Json.truthy v then v else JObj []
  | None => JObj []
  end.

(** Hook [tool.execute.after]. *)
Definition tool_execute_after (ctx : Ctx) (sessionID : option string)
    (tool : string) (args : option JSON) (output : string) : M unit :=
  let* current := gets currentSessionId in
  match or_str sessionID current with
  | None => ret tt
  | Some sessionId =>
      if negb (JsString.truthy sessionId) then ret tt
      else
        ensureSessionInit ctx sessionId None >>
        try_catch
          (WorkerClient.sendObservation ctx sessionId tool (args_or_empty args) output
             (projectRoot ctx))
          (fun _ => ret tt)
  end.

(** The tool [mem-search]. *)
Definition mem_search (ctx : Ctx) (query : string) : M string :=
  WorkerClient.search ctx query (projectName ctx).

(** ** Runs of the plugin *)

(** One invocation of a hook by the host, with the arguments the hook reads. *)
Inductive HookCall :=
| CallConfig (command : option (gmap string CommandDef))
| CallCommand (command : string) (sessionID : option string)
| CallEvent (ev : Event)
| CallChatMessage (sessionID : option string) (output_parts : option (list Part))
| CallSystemTransform (sessionID : option string) (system : list string)
| CallToolAfter (sessionID : option string) (tool : string) (args : option JSON)
                (output : string)
| CallMemSearch (query : string).

Definition dispatch (ctx : Ctx) (call : HookCall) : M unit :=
  match call with
  | CallConfig command => config command >> ret tt
  | CallCommand command sessionID => command_execute_before ctx command sessionID
  | CallEvent ev => event ctx ev
  | CallChatMessage sessionID output_parts => chat_message ctx sessionID output_parts
  | CallSystemTransform sessionID system => system_transform ctx sessionID system >> ret tt
  | CallToolAfter sessionID tool args output =>
      tool_execute_after ctx sessionID tool args output
  | CallMemSearch query => mem_search ctx query >> ret tt
  end.

(** The world after a hook, whether it returned or threw (the host catches
    what a hook throws). *)
Definition after {A} (m : M A) (w : World) : World := snd (m w).

(** The run of a list of hook invocations that do not overlap: each hook is
    done, its awaits included, before the host starts the next one. Hooks
    that overlap are played by [play]. *)
Definition run_hooks (ctx : Ctx) (calls : list HookCall) (w : World) : World :=
  fold_left (fun w call => after (dispatch ctx call) w) calls w.

(** ** Observers of a trace *)

Definition count (p : Effect -> bool) (tr : list Effect) : nat :=
  length (List.filter p tr).

Definition is_health_probe (e : Effect) : bool :=
  match e with GetHealth => true | _ => false end.

Definition is_session_init (sessionId : string) (e : Effect) : bool :=
  match e with
  | PostSessionInit sid _ _ => String.eqb sid sessionId
  | _ => false
  end.

Definition is_observation (e : Effect) : bool :=
  match e with PostObservation _ _ _ _ _ => true | _ => false end.

Definition is_context_fetch (e : Effect) : bool :=
  match e with GetContextInject _ => true | _ => false end.

Definition is_complete (e : Effect) : bool :=
  match e with PostComplete _ => true | _ => false end.

Definition variant_eqb (a b : Variant) : bool :=
  match a, b with
  | info, info | success, success | warning, warning | error, error => true
  | _, _ => false
  end.

(** The startup notification: one of the two toasts of [checkWorkerAndToast]. *)
Definition is_init_toast (ctx : Ctx) (e : Effect) : bool :=
  match e with
  | ShowToast message variant duration =>
      (String.eqb message ("Memory active · " +:+ projectName ctx)
       && variant_eqb variant success && (duration =? 3000)%Z)
      || (String.eqb message "Worker offline — start Claude Code first"
          && variant_eqb variant warning && (duration =? 5000)%Z)
  | _ => false
  end.

(** ** Weakest preconditions for [M] *)

Definition wp {A} (m : M A) (Q : Res A -> World -> Prop) (w : World) : Prop :=
  Q (fst (m w)) (snd (m w)).


(** ** Vocabulary of the properties *)

(** *** Step relations between the world before and after hook code *)

Definition unknown (flag : option bool) : nat :=
  match flag with None => 1 | Some _ => 0 end.

(** The probes made so far plus the one that is still to come stay the same
    number, and a determined flag stays. *)
Definition health_step (w w' : World) : Prop :=
  count is_health_probe (trace w') + unknown (workerHealthy (st w'))
    = count is_health_probe (trace w) + unknown (workerHealthy (st w))
  /\ (forall b, workerHealthy (st w) = Some b -> workerHealthy (st w') = Some b).

Definition pending (shown : bool) : nat := if shown then 0 else 1.

(** The same for the startup toast and [initToastShown]. *)
Definition toast_step (ctx : Ctx) (w w' : World) : Prop :=
  count (is_init_toast ctx) (trace w') + pending (initToastShown (st w'))
    = count (is_init_toast ctx) (trace w) + pending (initToastShown (st w))
  /\ (initToastShown (st w) = true -> initToastShown (st w') = true).

Definition unfetched (cache : option (option string)) : nat :=
  match cache with None => 1 | Some _ => 0 end.

(** The same for the context fetch and [contextCache]. *)
Definition cache_step (w w' : World) : Prop :=
  count is_context_fetch (trace w') + unfetched (contextCache (st w'))
    <= count is_context_fetch (trace w) + unfetched (contextCache (st w))
  /\ count is_context_fetch (trace w) <= count is_context_fetch (trace w')
  /\ (forall v, contextCache (st w) = Some v -> contextCache (st w') = Some v).

(** Whether a remote initialization of [sessionId] may still come: it is not
    in [initializedSessions] and the worker is not known to be down. *)
Definition may_init (sessionId : string) (s : State) : nat :=
  if bool_decide (sessionId ∈ initializedSessions s) then 0
  else match workerHealthy s with
       | Some false => 0
       | _ => 1
       end.

Definition init_step (sessionId : string) (w w' : World) : Prop :=
  count (is_session_init sessionId) (trace w') + may_init sessionId (st w')
    <= count (is_session_init sessionId) (trace w) + may_init sessionId (st w)
  /\ count (is_session_init sessionId) (trace w)
     <= count (is_session_init sessionId) (trace w').

(** What holds of the tracker in every world a run can reach: a session is
    only initialized once the worker was found healthy, and the startup toast
    is out once the flag is determined. *)
Definition tracker_inv (w : World) : Prop :=
  (workerHealthy (st w) = Some true \/ initializedSessions (st w) = ∅)
  /\ (workerHealthy (st w) = None \/ initToastShown (st w) = true).

(** *** Calls and events *)

Definition any_call (call : HookCall) : Prop := True.

(** A [session.created] event that carries an identifier. *)
Definition is_session_created (ev : Event) : bool :=
  String.eqb (event_type ev) "session.created" && truthy_str (info_id ev).

Definition keeps_cache (call : HookCall) : Prop :=
  match call with
  | CallEvent ev => is_session_created ev = false
  | _ => True
  end.

(** [ensureSessionInit] called once for each prompt of the list, with the
    same identifier. *)
Definition ensure_each (ctx : Ctx) (sessionId : string) (prompts : list (option string))
    (w : World) : World :=
  fold_left (fun w prompt => after (ensureSessionInit ctx sessionId prompt) w) prompts w.

(** A message of one text part. *)
Definition text_message (r text : string) : Message :=
  {| role := r; parts := Some [{| part_type := "text"; part_text := Some text |}] |}.

Definition has_role (r : string) (m : Message) : bool := String.eqb (role m) r.

(** *** Scenarios *)

Definition response_ok (data : JSON) : FetchOutcome :=
  FetchResponse {| ok := true; body := JsonBody data |}.

Definition response_status_500 : FetchOutcome :=
  FetchResponse {| ok := false; body := BadBody "Unexpected token" |}.

(** A project at [/work/demo] and a world that gives the answers [fetch_at]
    and [host_at]. *)
Definition ctx_demo (fetch_at : nat -> FetchOutcome) (host_at : nat -> HostOutcome) : Ctx :=
  {| worktree := Some "/work/demo"; directory := Some "/work/demo"; cwd := "/";
     fetch_at := fetch_at; host_at := host_at |}.

(** The same with another worktree path. *)
Definition ctx_demo_at (path : string) : Ctx :=
  {| worktree := Some path; directory := None; cwd := "/";
     fetch_at := fun _ => FetchThrew "TypeError: fetch failed";
     host_at := fun _ => HostResult None |}.

(** A worker that answers every request with [200] and the body [data]. *)
Definition ctx_answering (data : JSON) : Ctx :=
  ctx_demo (fun _ => response_ok data) (fun _ => HostResult None).

Definition ctx_online : Ctx := ctx_answering (JObj []).

(** No worker: every request is refused. *)
Definition ctx_offline : Ctx :=
  ctx_demo (fun _ => FetchThrew "TypeError: fetch failed") (fun _ => HostResult None).

(** A worker that is healthy (the first request is the probe) and then
    answers [500] to everything. *)
Definition ctx_init_fails : Ctx :=
  ctx_demo (fun i => match i with
                     | O => response_ok (JObj [])
                     | _ => response_status_500
                     end)
           (fun _ => HostResult None).

Definition session_created (sessionId : string) : Event :=
  {| event_type := "session.created"; info_id := Some sessionId;
     event_sessionID := None |}.

Definition session_idle (sessionId : string) : Event :=
  {| event_type := "session.idle"; info_id := None;
     event_sessionID := Some sessionId |}.

(** The history of the idle scenario, and a host that returns it. *)
Definition history_abxy : list Message :=
  [text_message "user" "a"; text_message "assistant" "x";
   text_message "user" "b"; text_message "assistant" "y"].

Definition ctx_history : Ctx :=
  ctx_demo (fun _ => response_ok (JObj [])) (fun _ => HostResult (Some history_abxy)).

(** The world right after the first [checkWorkerAndToast] of a process. *)
Definition first_check (ctx : Ctx) : World := after (checkWorkerAndToast ctx) init_world.

Definition later_calls : list HookCall :=
  [CallEvent (session_created "s1"); CallToolAfter (Some "s1") "bash" None "ok";
   CallSystemTransform (Some "s1") []; CallEvent (session_idle "s1");
   CallCommand "memory" None].

(** The world after a first user message of session [s1]. *)
Definition first_message (ctx : Ctx) : World :=
  after (ensureSessionInit ctx "s1" (Some "fix the bug")) init_world.

(** The world after the host announced session [s1]. *)
Definition session_announced (ctx : Ctx) : World :=
  run_hooks ctx [CallEvent (session_created "s1")] init_world.

Definition three_created : list Event :=
  [session_created "s1"; session_created "s1"; session_created "s1"].

(** ** Vocabulary of the further properties *)

(** The one hook call that ends by throwing: the [/memory] command, which
    signals the host through a sentinel error. *)
Definition is_memory_command (call : HookCall) : bool :=
  match call with
  | CallCommand command _ => String.eqb command "memory"
  | _ => false
  end.

(** A call that names a session names it by a non-empty identifier, and a
    remote initialization carries a non-empty prompt. *)
Definition well_addressed (e : Effect) : bool :=
  match e with
  | PostSessionInit sid _ prompt => JsString.truthy sid && JsString.truthy prompt
  | PostObservation sid _ _ _ _ => JsString.truthy sid
  | PostSummarize sid _ _ => JsString.truthy sid
  | PostComplete sid => JsString.truthy sid
  | SessionPrompt sid _ => JsString.truthy sid
  | SessionMessages sid => JsString.truthy sid
  | _ => true
  end.

(** The identifiers the tracker holds are non-empty. *)
Definition ids_nonempty (s : State) : Prop :=
  (forall x, currentSessionId s = Some x -> JsString.truthy x = true)
  /\ (forall x, x ∈ initializedSessions s -> JsString.truthy x = true).

(** A remote initialization of any session. *)
Definition is_any_session_init (e : Effect) : bool :=
  match e with PostSessionInit _ _ _ => true | _ => false end.

(** The text of the last message of a role, or the empty string. *)
Definition last_text (r : string) (messages : list Message) : string :=
  match last (List.filter (has_role r) messages) with
  | Some m => extractTextFromParts (parts m)
  | None => EmptyString
  end.

(** What the idle handler sends for a session, given the two texts. *)
Definition idle_calls (sessionId user assistant : string) : list Effect :=
  [SessionMessages sessionId; PostSummarize sessionId user assistant;
   PostComplete sessionId; ShowToast "Session summarized" success 2000].

(** The element that the system-prompt transform appends. *)
Definition banner (text : string) : string :=
  "[Claude-Mem] Memory Active. Previous Context:" +:+ Json.newline +:+ text.

Definition offline_notice : string := "⚠ Claude-Mem worker is offline".

Definition no_context_notice (ctx : Ctx) : string :=
  "No memory context available for " +:+ projectName ctx.

(** What [sendStatusMessage] adds to the trace when it is the call number
    [i]: the prompt, and the toast when the prompt throws. *)
Definition status_calls (ctx : Ctx) (i : nat) (sessionId text : string) : list Effect :=
  SessionPrompt sessionId text
  :: match host_at ctx i with
     | HostThrew _ => [ShowToast (JsString.slice_prefix 200 text) info 3000]
     | HostResult _ => []
     end.

(** What the [/memory] command shows for a cached context. *)
Definition context_notice (ctx : Ctx) (context : option string) : string :=
  match context with
  | Some text => if JsString.truthy text then text else no_context_notice ctx
  | None => no_context_notice ctx
  end.

(** A part that [extractTextFromParts] keeps. *)
Definition is_text_part (p : Part) : bool :=
  String.eqb (part_type p) "text"
  && match part_text p with Some _ => true | None => false end.

(** [userPrompt || undefined] followed by [prompt || 'SESSION_START']. *)
Definition chat_prompt (output_parts : option (list Part)) : string :=
  let userPrompt := extractTextFromParts output_parts in
  prompt_or_default (if JsString.truthy userPrompt then Some userPrompt else None).

Fixpoint has_separator (s : string) : bool :=
  match s with
  | EmptyString => false
  | String c rest => JsString.is_separator c || has_separator rest
  end.

Definition memory_command : CommandDef :=
  {| template := "/memory"; description := "Show memory context from Claude-Mem" |}.

(** Whether the probe finds the worker healthy. *)
Definition probe_ok (o : FetchOutcome) : bool :=
  match o with
  | FetchResponse r => ok r
  | FetchThrew _ => false
  end.

Definition startup_toast (ctx : Ctx) (healthy : bool) : Effect :=
  if healthy
  then ShowToast ("Memory active · " +:+ projectName ctx) success 3000
  else ShowToast "Worker offline — start Claude Code first" warning 5000.

(** A worker that is healthy and holds the context [text]. *)
Definition ctx_with_context (text : string) : Ctx :=
  ctx_demo (fun _ => response_ok (JStr text)) (fun _ => HostResult None).

(** A host whose calls all throw, with a healthy worker. *)
Definition ctx_host_down : Ctx :=
  ctx_demo (fun _ => response_ok (JObj [])) (fun _ => HostThrew "TUI not available").

Fixpoint only_separators (s : string) : bool :=
  match s with
  | EmptyString => true
  | String c rest => JsString.is_separator c && only_separators rest
  end.

(** A plugin context for a worktree path. *)
Definition ctx_at (path : option string) (base : Ctx) : Ctx :=
  {| worktree := path; directory := directory base; cwd := cwd base;
     fetch_at := fetch_at base; host_at := host_at base |}.

(** ** Overlapping hooks

    The hooks are [async] functions: at an [await] of a worker request or of
    a host call the function is suspended, and the code of other hooks may run
    on the same tracker state before it resumes. [M] runs each of these
    awaits at once, which is the run of hooks that do not overlap. The
    definitions below keep the awaits apart: an async function runs on the
    state up to its next await ([Pending]); a [Pool] holds the suspended
    functions, and a schedule says which one starts or resumes next. A call
    is numbered when it is made, and its answer is the one the context gives
    for that number. *)

Inductive Pending (A : Type) : Type :=
| Finished (s : State) (r : Res A)
| AwaitFetch (s : State) (request : Effect) (resume : FetchOutcome -> State -> Pending A)
| AwaitHost (s : State) (call : Effect) (resume : HostOutcome -> State -> Pending A).
Arguments Finished {A} s r.
Arguments AwaitFetch {A} s request resume.
Arguments AwaitHost {A} s call resume.

Definition Async (A : Type) : Type := State -> Pending A.

Module Async.

Definition ret {A} (a : A) : Async A := fun s => Finished s (Ok a).

Definition throw {A} (e : string) : Async A := fun s => Finished s (Throw e).

Definition gets {A} (f : State -> A) : Async A := fun s => Finished s (Ok (f s)).

Definition modify (f : State -> State) : Async unit := fun s => Finished (f s) (Ok tt).

(** The code after [p] runs as soon as [p] has finished, with no await
    between. *)
Fixpoint then_ {A B} (p : Pending A) (k : A -> Async B) : Pending B :=
  match p with
  | Finished s (Ok a) => k a s
  | Finished s (Throw e) => Finished s (Throw e)
  | AwaitFetch s request resume =>
      AwaitFetch s request (fun o s' => then_ (resume o s') k)
  | AwaitHost s call resume =>
      AwaitHost s call (fun o s' => then_ (resume o s') k)
  end.

Definition bind {A B} (m : Async A) (k : A -> Async B) : Async B :=
  fun s => then_ (m s) k.

Fixpoint caught {A} (p : Pending A) (h : string -> Async A) : Pending A :=
  match p with
  | Finished s (Ok a) => Finished s (Ok a)
  | Finished s (Throw e) => h e s
  | AwaitFetch s request resume =>
      AwaitFetch s request (fun o s' => caught (resume o s') h)
  | AwaitHost s call resume =>
      AwaitHost s call (fun o s' => caught (resume o s') h)
  end.

(** [try { m } catch (e) { h e }]. *)
Definition try_catch {A} (m : Async A) (h : string -> Async A) : Async A :=
  fun s => caught (m s) h.

(** [await fetch(...)]. *)
Definition fetch (request : Effect) : Async Response :=
  fun s =>
    AwaitFetch s request
      (fun o s' =>
         match o with
         | FetchThrew err => Finished s' (Throw err)
         | FetchResponse r => Finished s' (Ok r)
         end).

(** [await response.json()]: the body is at hand when the response is. *)
Definition response_json (r : Response) : Async JSON :=
  match body r with
  | JsonBody data => ret data
  | BadBody err => throw err
  end.

(** [await] of a call into the host API. *)
Definition host_call (call : Effect) : Async (option (list Message)) :=
  fun s =>
    AwaitHost s call
      (fun o s' =>
         match o with
         | HostThrew err => Finished s' (Throw err)
         | HostResult data => Finished s' (Ok data)
         end).

Notation "'let!' x ':=' m 'in' k" := (bind m (fun x => k))
  (at level 10, x name, m at level 100, k at level 200, only parsing).
Notation "m '>>!' k" := (bind m (fun _ => k))
  (at level 90, right associativity, only parsing).

Definition isHealthy : Async bool :=
  try_catch
    (let! response := fetch GetHealth in
     ret (ok response))
    (fun _ => ret false).

Definition sessionInit (contentSessionId project prompt : string) : Async (option JSON) :=
  try_catch
    (let! response := fetch (PostSessionInit contentSessionId project prompt) in
     if negb (ok response) then ret None
     else let! data := response_json response in ret (Some data))
    (fun _ => ret None).

Definition sendObservation (contentSessionId toolName : string) (toolInput : JSON)
    (toolResponse cwd : string) : Async unit :=
  try_catch
    (fetch (PostObservation contentSessionId toolName toolInput toolResponse cwd)
     >>! ret tt)
    (fun _ => ret tt).

Definition summarize (contentSessionId lastUserMessage lastAssistantMessage : string)
  : Async unit :=
  try_catch
    (fetch (PostSummarize contentSessionId lastUserMessage lastAssistantMessage)
     >>! ret tt)
    (fun _ => ret tt).

Definition completeSession (contentSessionId : string) : Async unit :=
  try_catch
    (fetch (PostComplete contentSessionId) >>! ret tt)
    (fun _ => ret tt).

Definition getContext (project : string) : Async (option string) :=
  try_catch
    (let! response := fetch (GetContextInject project) in
     if negb (ok response) then ret None
     else
       let! data := response_json response in
       match data with
       | JStr s => ret (Some s)
       | _ =>
           match (if Json.truthy data then WorkerClient.content_string data else None) with
           | Some s => ret (Some s)
           | None =>
               let text := Json.stringify data in
               if String.eqb text "{}" || String.eqb text "null"
               then ret None else ret (Some text)
           end
       end)
    (fun _ => ret None).

Definition search (query project : string) : Async string :=
  try_catch
    (let! response := fetch (GetSearch query project) in
     if negb (ok response) then ret "Search failed"
     else
       let! data := response_json response in
       ret (Json.stringify data))
    (fun e => ret ("Error performing search: " +:+ e)).

Definition toast (message : string) (variant : Variant) (duration : Z) : Async unit :=
  try_catch
    (host_call (ShowToast message variant duration) >>! ret tt)
    (fun _ => ret tt).

Definition sendStatusMessage (sessionId text : string) : Async unit :=
  try_catch
    (host_call (SessionPrompt sessionId text) >>! ret tt)
    (fun _ => toast (JsString.slice_prefix 200 text) info 3000).

Definition getCachedContext (ctx : Ctx) : Async (option string) :=
  let! cache := gets contextCache in
  match cache with
  | Some cached => ret cached
  | None =>
      let! context := getContext (projectName ctx) in
      modify (set_contextCache (Some context)) >>!
      ret context
  end.

Definition checkWorkerAndToast (ctx : Ctx) : Async (option bool) :=
  let! flag := gets workerHealthy in
  (match flag with
   | None =>
       let! healthy := isHealthy in
       modify (set_workerHealthy (Some healthy))
   | Some _ => ret tt
   end) >>!
  let! shown := gets initToastShown in
  (if negb shown then
     modify (set_initToastShown true) >>!
     let! flag := gets workerHealthy in
     if truthy_flag flag
     then toast ("Memory active · " +:+ projectName ctx) success 3000
     else toast "Worker offline — start Claude Code first" warning 5000
   else ret tt) >>!
  gets workerHealthy.

Definition ensureSessionInit (ctx : Ctx) (sessionId : string) (prompt : option string)
  : Async bool :=
  let! initialized := gets initializedSessions in
  if bool_decide (sessionId ∈ initialized) then ret true
  else
    let! isHealthy := checkWorkerAndToast ctx in
    if negb (truthy_flag isHealthy) then ret false
    else
      try_catch
        (sessionInit sessionId (projectName ctx) (prompt_or_default prompt) >>!
         modify (add_initializedSession sessionId) >>!
         modify (set_currentSessionId (Some sessionId)) >>!
         ret true)
        (fun _ => ret false).

Definition config (command : option (gmap string CommandDef))
  : Async (gmap string CommandDef) :=
  ret (<["memory" := {| template := "/memory";
                        description := "Show memory context from Claude-Mem" |}]>
         (default ∅ command)).

Definition command_execute_before (ctx : Ctx) (command : string)
    (sessionID : option string) : Async unit :=
  if negb (String.eqb command "memory") then ret tt
  else
    let! current := gets currentSessionId in
    match or_str sessionID current with
    | None => throw "__MEMORY_NO_SESSION__"
    | Some sessionId =>
        if negb (JsString.truthy sessionId) then throw "__MEMORY_NO_SESSION__"
        else
          let! isHealthy := checkWorkerAndToast ctx in
          if negb (truthy_flag isHealthy) then
            sendStatusMessage sessionId "⚠ Claude-Mem worker is offline" >>!
            throw "__MEMORY_HANDLED__"
          else
            let! context := getCachedContext ctx in
            (match context with
             | Some text =>
                 if JsString.truthy text then sendStatusMessage sessionId text
                 else sendStatusMessage sessionId
                        ("No memory context available for " +:+ projectName ctx)
             | None =>
                 sendStatusMessage sessionId
                   ("No memory context available for " +:+ projectName ctx)
             end) >>!
            throw "__MEMORY_HANDLED__"
    end.

Definition on_session_created (ctx : Ctx) (ev : Event) : Async bool :=
  let sessionId := info_id ev in
  if negb (truthy_str sessionId) then ret true
  else
    modify (set_currentSessionId sessionId) >>!
    modify (set_contextCache None) >>!
    checkWorkerAndToast ctx >>!
    ret false.

Definition on_session_idle (ev : Event) : Async unit :=
  let! current := gets currentSessionId in
  match or_str (event_sessionID ev) current with
  | None => ret tt
  | Some sessionId =>
      if negb (JsString.truthy sessionId) then ret tt
      else
        try_catch
          (let! last :=
             try_catch
               (let! data := host_call (SessionMessages sessionId) in
                match data with
                | Some messages =>
                    ret (scan_back "user" messages (length messages) EmptyString,
                         scan_back "assistant" messages (length messages) EmptyString)
                | None => ret (EmptyString, EmptyString)
                end)
               (fun _ => ret (EmptyString, EmptyString)) in
           summarize sessionId (fst last) (snd last) >>!
           completeSession sessionId >>!
           toast "Session summarized" success 2000)
          (fun _ => ret tt)
  end.

Definition event (ctx : Ctx) (ev : Event) : Async unit :=
  let! returned :=
    (if String.eqb (event_type ev) "session.created"
     then on_session_created ctx ev else ret false) in
  if returned then ret tt
  else if String.eqb (event_type ev) "session.idle"
       then on_session_idle ev else ret tt.

Definition chat_message (ctx : Ctx) (sessionID : option string)
    (output_parts : option (list Part)) : Async unit :=
  match sessionID with
  | Some sessionId =>
      if JsString.truthy sessionId then
        let userPrompt := extractTextFromParts output_parts in
        ensureSessionInit ctx sessionId
          (if JsString.truthy userPrompt then Some userPrompt else None) >>!
        ret tt
      else ret tt
  | None => ret tt
  end.

Definition system_transform (ctx : Ctx) (sessionID : option string)
    (system : list string) : Async (list string) :=
  (match sessionID with
   | Some sessionId =>
       if JsString.truthy sessionId
       then ensureSessionInit ctx sessionId None >>! ret tt
       else ret tt
   | None => ret tt
   end) >>!
  let! isHealthy := checkWorkerAndToast ctx in
  if negb (truthy_flag isHealthy) then ret system
  else
    try_catch
      (let! context := getCachedContext ctx in
       match context with
       | Some text =>
           if JsString.truthy text
           then ret (system ++ ["[Claude-Mem] Memory Active. Previous Context:"
                                +:+ Json.newline +:+ text])
           else ret system
       | None => ret system
       end)
      (fun _ => ret system).

Definition tool_execute_after (ctx : Ctx) (sessionID : option string)
    (tool : string) (args : option JSON) (output : string) : Async unit :=
  let! current := gets currentSessionId in
  match or_str sessionID current with
  | None => ret tt
  | Some sessionId =>
      if negb (JsString.truthy sessionId) then ret tt
      else
        ensureSessionInit ctx sessionId None >>!
        try_catch
          (sendObservation sessionId tool (args_or_empty args) output (projectRoot ctx))
          (fun _ => ret tt)
  end.

Definition mem_search (ctx : Ctx) (query : string) : Async string :=
  search query (projectName ctx).

Definition dispatch (ctx : Ctx) (call : HookCall) : Async unit :=
  match call with
  | CallConfig command => config command >>! ret tt
  | CallCommand command sessionID => command_execute_before ctx command sessionID
  | CallEvent ev => event ctx ev
  | CallChatMessage sessionID output_parts => chat_message ctx sessionID output_parts
  | CallSystemTransform sessionID system => system_transform ctx sessionID system >>! ret tt
  | CallToolAfter sessionID tool args output =>
      tool_execute_after ctx sessionID tool args output
  | CallMemSearch query => mem_search ctx query >>! ret tt
  end.

End Async.

(** A suspended function: done, or waiting for the answer to its call number
    [number]. *)
Inductive Task (A : Type) : Type :=
| Settled (r : Res A)
| OnFetch (number : nat) (resume : FetchOutcome -> State -> Pending A)
| OnHost (number : nat) (resume : HostOutcome -> State -> Pending A).
Arguments Settled {A} r.
Arguments OnFetch {A} number resume.
Arguments OnHost {A} number resume.

Record Pool (A : Type) : Type := { shared : World; tasks : list (Task A) }.
Arguments shared {A} p.
Arguments tasks {A} p.

(** The code ran up to its next await: the state is written back, the call,
    if any, is made. *)
Definition settle {A} (p : Pending A) (tr : list Effect) : World * Task A :=
  match p with
  | Finished s r => ({| st := s; trace := tr |}, Settled r)
  | AwaitFetch s request resume =>
      ({| st := s; trace := tr ++ [request] |}, OnFetch (length tr) resume)
  | AwaitHost s call resume =>
      ({| st := s; trace := tr ++ [call] |}, OnHost (length tr) resume)
  end.

Inductive Move (A : Type) : Type :=
| Start (f : Async A)
| Resume (i : nat).
Arguments Start {A} f.
Arguments Resume {A} i.

(** One step of a schedule: a hook starts, or the answer to the call of the
    task [i] arrives. Resuming a task that is not waiting does nothing. *)
Definition move {A} (ctx : Ctx) (pool : Pool A) (m : Move A) : Pool A :=
  match m with
  | Start f =>
      let (w, t) := settle (f (st (shared pool))) (trace (shared pool)) in
      {| shared := w; tasks := tasks pool ++ [t] |}
  | Resume i =>
      match tasks pool !! i with
      | Some (OnFetch number resume) =>
          let (w, t) := settle (resume (fetch_at ctx number) (st (shared pool)))
                               (trace (shared pool)) in
          {| shared := w; tasks := <[i := t]> (tasks pool) |}
      | Some (OnHost number resume) =>
          let (w, t) := settle (resume (host_at ctx number) (st (shared pool)))
                               (trace (shared pool)) in
          {| shared := w; tasks := <[i := t]> (tasks pool) |}
      | _ => pool
      end
  end.

Definition play {A} (ctx : Ctx) (moves : list (Move A)) (pool : Pool A) : Pool A :=
  fold_left (move ctx) moves pool.

Definition idle_pool {A} (w : World) : Pool A := {| shared := w; tasks := [] |}.

(** The results of the tasks that are done. *)
Definition results {A} (pool : Pool A) : list (option (Res A)) :=
  List.map (fun t => match t with Settled r => Some r | _ => None end) (tasks pool).

(** An async function run with every await answered at once. *)
Fixpoint complete {A} (ctx : Ctx) (p : Pending A) (tr : list Effect) : Res A * World :=
  match p with
  | Finished s r => (r, {| st := s; trace := tr |})
  | AwaitFetch s request resume =>
      complete ctx (resume (fetch_at ctx (length tr)) s) (tr ++ [request])
  | AwaitHost s call resume =>
      complete ctx (resume (host_at ctx (length tr)) s) (tr ++ [call])
  end.

Definition alone {A} (ctx : Ctx) (f : Async A) : M A :=
  fun w => complete ctx (f (st w)) (trace w).

(** *** Scenarios with overlapping hooks *)

(** A worker that answers, except for the second request of the process,
    which is refused (the one-second timer of a probe aborts it, or the
    worker is restarting). *)
Definition ctx_second_refused : Ctx :=
  ctx_demo (fun i => match i with
                     | S O => FetchThrew "AbortError: The operation was aborted"
                     | _ => response_ok (JObj [])
                     end)
           (fun _ => HostResult None).

(** The first two hooks of a process: the host announces session [s1] and
    builds the system prompt of its first turn. *)
Definition first_turn : list HookCall :=
  [CallEvent (session_created "s1"); CallSystemTransform (Some "s1") ["You are helpful."]].

(** Both hooks start before the worker has answered the first probe; then
    the answers arrive in the order of the calls: the probe of the event, the
    probe of the prompt, the toast of the event. *)
Definition first_turn_moves (ctx : Ctx) : list (Move unit) :=
  [Start (Async.dispatch ctx (CallEvent (session_created "s1")));
   Start (Async.dispatch ctx (CallSystemTransform (Some "s1") ["You are helpful."]));
   Resume 0; Resume 1; Resume 0].

(** The process after the first [n] moves of the overlapping first turn. *)
Definition first_turn_overlapping (ctx : Ctx) (n : nat) : Pool unit :=
  play ctx (take n (first_turn_moves ctx)) (idle_pool init_world).

(** A worker whose memory changes: the requests up to number three get the
    context [notes of session one], the later ones [notes of session two]. *)
Definition ctx_notes : Ctx :=
  ctx_demo (fun i => response_ok (JStr (if (i <=? 3)%nat then "notes of session one"
                                        else "notes of session two")))
           (fun _ => HostResult None).

(** Two prompts of session [s1] are built at the same time (the turn of the
    user and the request for a title of the session); then the two contexts
    arrive. *)
Definition two_prompts_moves (ctx : Ctx) : list (Move (list string)) :=
  [Start (Async.system_transform ctx (Some "s1") ["You are helpful."]);
   Start (Async.system_transform ctx (Some "s1") ["Write a title."]);
   Resume 0; Resume 1].

(** The same two prompts, one after the other. *)
Definition two_prompts_calls : list HookCall :=
  [CallSystemTransform (Some "s1") ["You are helpful."];
   CallSystemTransform (Some "s1") ["Write a title."]].

(** The process after the first [n] moves of the two prompts; the first
    message of session [s1] has been sent before. *)
Definition two_prompts (ctx : Ctx) (n : nat) : Pool (list string) :=
  play ctx (take n (two_prompts_moves ctx)) (idle_pool (first_message ctx)).

(** A prompt of session [s1] is waiting for the context when the host
    announces session [s2]; the context arrives afterwards; then the first
    prompt of session [s2] is built. *)
Definition late_context_moves (ctx : Ctx) : list (Move unit) :=
  [Start (Async.dispatch ctx (CallSystemTransform (Some "s1") ["You are helpful."]));
   Start (Async.dispatch ctx (CallEvent (session_created "s2")));
   Resume 0;
   Start (Async.dispatch ctx (CallSystemTransform (Some "s2") ["You are helpful."]));
   Resume 2].

Definition late_context (ctx : Ctx) (n : nat) : Pool unit :=
  play ctx (take n (late_context_moves ctx)) (idle_pool (first_message ctx)).
Section WpRules.
Context {A B : Type}.

Lemma wp_ret (a : A) Q w : Q (Ok a) w -> wp (ret a) Q w.
Proof. exact (fun H => H). Qed.

Lemma wp_throw (e : string) (Q : Res A -> World -> Prop) w :
  Q (Throw e) w -> wp (throw e) Q w.
Proof. exact (fun H => H). Qed.

Lemma wp_gets (f : State -> A) Q w : Q (Ok (f (st w))) w -> wp (gets f) Q w.
Proof. exact (fun H => H). Qed.

Lemma wp_bind (m : M A) (k : A -> M B) Q w :
  wp m (fun r w' => match r with
                    | Ok a => wp (k a) Q w'
                    | Throw e => Q (Throw e) w'
                    end) w ->
  wp (bind m k) Q w.
Proof. unfold wp, bind. destruct (m w) as [[a|e] w']; exact (fun H => H). Qed.

Lemma wp_try_catch (m : M A) (h : string -> M A) Q w :
  wp m (fun r w' => match r with
                    | Ok a => Q (Ok a) w'
                    | Throw e => wp (h e) Q w'
                    end) w ->
  wp (try_catch m h) Q w.
Proof. unfold wp, try_catch. destruct (m w) as [[a|e] w']; exact (fun H => H). Qed.
End WpRules.

Lemma wp_modify f (Q : Res unit -> World -> Prop) w :
  Q (Ok tt) (upd f w) -> wp (modify f) Q w.
Proof. exact (fun H => H). Qed.

Lemma wp_host_call ctx e (Q : Res (option (list Message)) -> World -> Prop) w :
  match host_at ctx (length (trace w)) with
  | HostThrew err => Q (Throw err) (push e w)
  | HostResult data => Q (Ok data) (push e w)
  end ->
  wp (host_call ctx e) Q w.
Proof. unfold wp, host_call. destruct (host_at _ _); exact (fun H => H). Qed.

(** ** What the client and the helpers do, call by call *)

Lemma wp_after {A} (m : M A) (P : World -> Prop) w :
  wp m (fun _ w' => P w') w -> P (after m w).
Proof. exact (fun H => H). Qed.

Lemma wp_eq {A} (m : M A) (r : Res A) (w1 w : World) :
  wp m (fun r' w' => r' = r /\ w' = w1) w -> m w = (r, w1).
Proof. unfold wp. destruct (m w) as [r' w']. cbn. intros [-> ->]. reflexivity. Qed.

Lemma toast_eq ctx message variant duration w :
  toast ctx message variant duration w = (Ok tt, push (ShowToast message variant duration) w).
Proof.
  unfold toast, try_catch, bind, host_call, ret.
  destruct (host_at ctx (length (trace w))); reflexivity.
Qed.

Lemma isHealthy_eq ctx w :
  exists b, WorkerClient.isHealthy ctx w = (Ok b, push GetHealth w).
Proof.
  unfold WorkerClient.isHealthy, try_catch, bind, fetch, ret.
  destruct (fetch_at ctx (length (trace w))); eauto.
Qed.

Lemma sessionInit_eq ctx sid project prompt w :
  exists r, WorkerClient.sessionInit ctx sid project prompt w
            = (Ok r, push (PostSessionInit sid project prompt) w).
Proof.
  unfold WorkerClient.sessionInit, try_catch, bind, fetch, response_json, ret, throw.
  destruct (fetch_at ctx (length (trace w))) as [err|[[] []]]; cbn; eauto.
Qed.

Lemma sendObservation_eq ctx sid tool input output cwd w :
  WorkerClient.sendObservation ctx sid tool input output cwd w
  = (Ok tt, push (PostObservation sid tool input output cwd) w).
Proof.
  unfold WorkerClient.sendObservation, try_catch, bind, fetch, ret.
  destruct (fetch_at ctx (length (trace w))); reflexivity.
Qed.

Lemma summarize_eq ctx sid u a w :
  WorkerClient.summarize ctx sid u a w = (Ok tt, push (PostSummarize sid u a) w).
Proof.
  unfold WorkerClient.summarize, try_catch, bind, fetch, ret.
  destruct (fetch_at ctx (length (trace w))); reflexivity.
Qed.

Lemma completeSession_eq ctx sid w :
  WorkerClient.completeSession ctx sid w = (Ok tt, push (PostComplete sid) w).
Proof.
  unfold WorkerClient.completeSession, try_catch, bind, fetch, ret.
  destruct (fetch_at ctx (length (trace w))); reflexivity.
Qed.

Lemma getContext_eq ctx project w :
  exists r, WorkerClient.getContext ctx project w = (Ok r, push (GetContextInject project) w).
Proof.
  unfold WorkerClient.getContext, try_catch, bind, fetch, response_json, ret, throw.
  destruct (fetch_at ctx (length (trace w))) as [err|[[] [data|err]]]; cbn; eauto.
  destruct data; cbn; eauto;
    repeat match goal with
           | |- context [WorkerClient.content_string ?x] =>
               destruct (WorkerClient.content_string x); cbn; eauto
           | |- context [if ?x then _ else _] => destruct x; cbn; eauto
           end.
Qed.

Lemma search_eq ctx query project w :
  exists r, WorkerClient.search ctx query project w = (Ok r, push (GetSearch query project) w).
Proof.
  unfold WorkerClient.search, try_catch, bind, fetch, response_json, ret, throw.
  destruct (fetch_at ctx (length (trace w))) as [err|[[] [data|err]]]; cbn; eauto.
Qed.

Section WpClient.
Variable ctx : Ctx.

Lemma wp_toast message variant duration (Q : Res unit -> World -> Prop) w :
  Q (Ok tt) (push (ShowToast message variant duration) w) ->
  wp (toast ctx message variant duration) Q w.
Proof. unfold wp. rewrite toast_eq. exact (fun H => H). Qed.

Lemma wp_isHealthy (Q : Res bool -> World -> Prop) w :
  (forall b, Q (Ok b) (push GetHealth w)) -> wp (WorkerClient.isHealthy ctx) Q w.
Proof. unfold wp. destruct (isHealthy_eq ctx w) as [b ->]. intros H. apply H. Qed.

Lemma wp_sessionInit sid project prompt (Q : Res (option JSON) -> World -> Prop) w :
  (forall r, Q (Ok r) (push (PostSessionInit sid project prompt) w)) ->
  wp (WorkerClient.sessionInit ctx sid project prompt) Q w.
Proof.
  unfold wp. destruct (sessionInit_eq ctx sid project prompt w) as [r ->].
  intros H. apply H.
Qed.

Lemma wp_sendObservation sid tool input output cwd (Q : Res unit -> World -> Prop) w :
  Q (Ok tt) (push (PostObservation sid tool input output cwd) w) ->
  wp (WorkerClient.sendObservation ctx sid tool input output cwd) Q w.
Proof. unfold wp. rewrite sendObservation_eq. exact (fun H => H). Qed.

Lemma wp_summarize sid u a (Q : Res unit -> World -> Prop) w :
  Q (Ok tt) (push (PostSummarize sid u a) w) ->
  wp (WorkerClient.summarize ctx sid u a) Q w.
Proof. unfold wp. rewrite summarize_eq. exact (fun H => H). Qed.

Lemma wp_completeSession sid (Q : Res unit -> World -> Prop) w :
  Q (Ok tt) (push (PostComplete sid) w) ->
  wp (WorkerClient.completeSession ctx sid) Q w.
Proof. unfold wp. rewrite completeSession_eq. exact (fun H => H). Qed.

Lemma wp_getContext project (Q : Res (option string) -> World -> Prop) w :
  (forall r, Q (Ok r) (push (GetContextInject project) w)) ->
  wp (WorkerClient.getContext ctx project) Q w.
Proof. unfold wp. destruct (getContext_eq ctx project w) as [r ->]. intros H. apply H. Qed.

Lemma wp_search query project (Q : Res string -> World -> Prop) w :
  (forall r, Q (Ok r) (push (GetSearch query project) w)) ->
  wp (WorkerClient.search ctx query project) Q w.
Proof. unfold wp. destruct (search_eq ctx query project w) as [r ->]. intros H. apply H. Qed.
End WpClient.

#[global] Opaque wp.

(** Symbolic execution of hook code: one rule per construct, a case split
    per test of the source. *)
Ltac wp_red :=
  cbv beta iota zeta;
  cbn [st trace push upd fst snd negb
       contextCache workerHealthy initToastShown currentSessionId initializedSessions
       set_contextCache set_workerHealthy set_initToastShown set_currentSessionId
       add_initializedSession truthy_flag event_type info_id event_sessionID].

(** A test of the source: decided by a fact at hand or by evaluation when
    that is possible, a case split otherwise. *)
Ltac split_on x :=
  first
    [ match goal with
      | H : x = _ |- _ => rewrite H
      end
    | lazymatch x with
      | String.eqb _ _ =>
          let v := eval vm_compute in x in
          lazymatch v with
          | true => change x with true
          | false => change x with false
          end
      end
    | destruct x eqn:? ].

Ltac head_of m :=
  lazymatch m with
  | ?f _ => head_of f
  | _ => m
  end.

Ltac wp_step :=
  lazymatch goal with
  | |- wp (ret _) _ _ => apply wp_ret
  | |- wp (throw _) _ _ => apply wp_throw
  | |- wp (gets _) _ _ => apply wp_gets
  | |- wp (modify _) _ _ => apply wp_modify
  | |- wp (bind _ _) _ _ => apply wp_bind
  | |- wp (try_catch _ _) _ _ => apply wp_try_catch
  | |- wp (toast _ _ _ _) _ _ => apply wp_toast
  | |- wp (WorkerClient.isHealthy _) _ _ => apply wp_isHealthy; intros ?
  | |- wp (WorkerClient.sessionInit _ _ _ _) _ _ => apply wp_sessionInit; intros ?
  | |- wp (WorkerClient.sendObservation _ _ _ _ _ _) _ _ => apply wp_sendObservation
  | |- wp (WorkerClient.summarize _ _ _ _) _ _ => apply wp_summarize
  | |- wp (WorkerClient.completeSession _ _) _ _ => apply wp_completeSession
  | |- wp (WorkerClient.getContext _ _) _ _ => apply wp_getContext; intros ?
  | |- wp (WorkerClient.search _ _ _) _ _ => apply wp_search; intros ?
  | |- wp (host_call _ _) _ _ =>
      apply wp_host_call; wp_red;
      lazymatch goal with
      | |- match ?x with _ => _ end => split_on x
      end
  | |- wp (if negb ?x then _ else _) _ _ => split_on x
  | |- wp (match ?x with _ => _ end) _ _ => split_on x
  | |- wp ?m _ _ =>
      let h := head_of m in unfold h
  end; wp_red.

Ltac wp_run := repeat wp_step.

(** The tests a symbolic run has decided. *)
Ltac use_tests :=
  repeat match goal with
         | H : bool_decide _ = _ |- _ => rewrite H
         end.

Ltac finish := repeat split; try lia; try congruence.

(** ** Checks on small inputs *)

Example trim_ascii :
  JsString.trim ("  a b " +:+ Json.newline) = "a b".
Proof. reflexivity. Qed.

Example trim_no_break_space :
  JsString.trim (String (ascii_of_nat 194) (String (ascii_of_nat 160) "x ")) = "x".
Proof. reflexivity. Qed.

Example slice_counts_characters : JsString.slice_prefix 2 "a·b" = "a·".
Proof. reflexivity. Qed.

Example stringify_array :
  Json.stringify (JArr [JNum "1"; JArr []; JNull])
  = "[" +:+ Json.newline +:+ "  1," +:+ Json.newline +:+ "  []," +:+ Json.newline
    +:+ "  null" +:+ Json.newline +:+ "]".
Proof. reflexivity. Qed.

Example stringify_member :
  Json.stringify (JObj [("n", JNum "1")])
  = "{" +:+ Json.newline +:+ "  " +:+ Json.quote "n" +:+ ": 1" +:+ Json.newline +:+ "}".
Proof. reflexivity. Qed.

Example extract_text_parts :
  extractTextFromParts
    (Some [{| part_type := "text"; part_text := Some "a" |};
           {| part_type := "tool"; part_text := Some "skipped" |};
           {| part_type := "text"; part_text := None |};
           {| part_type := "text"; part_text := Some "b " |}])
  = "a" +:+ Json.newline +:+ "b".
Proof. reflexivity. Qed.

Example projectName_unix : projectName ctx_online = "demo".
Proof. reflexivity. Qed.

Example projectName_windows :
  projectName (ctx_demo_at "C:\work\demo\") = "demo".
Proof. reflexivity. Qed.

Example projectName_missing : projectName (ctx_demo_at "/") = "unknown-project".
Proof. reflexivity. Qed.

Example getContext_plain_text :
  fst (WorkerClient.getContext (ctx_answering (JStr "# notes")) "demo" init_world)
  = Ok (Some "# notes").
Proof. reflexivity. Qed.

Example getContext_content_field :
  fst (WorkerClient.getContext (ctx_answering (JObj [("content", JStr "# notes")]))
         "demo" init_world)
  = Ok (Some "# notes").
Proof. reflexivity. Qed.

Example getContext_other_payload :
  fst (WorkerClient.getContext (ctx_answering (JArr [])) "demo" init_world) = Ok (Some "[]").
Proof. reflexivity. Qed.

Example first_message_trace :
  trace (first_message ctx_online)
  = [GetHealth; ShowToast "Memory active · demo" success 3000;
     PostSessionInit "s1" "demo" "fix the bug"].
Proof. reflexivity. Qed.

Example memory_command_signals_handled :
  fst (command_execute_before ctx_offline "memory" (Some "s1") init_world)
  = Throw "__MEMORY_HANDLED__".
Proof. reflexivity. Qed.

(** ** Runs: induction over the hook calls *)

Lemma count_snoc p tr e :
  count p (tr ++ [e]) = count p tr + (if p e then 1 else 0).
Proof.
  unfold count. rewrite List.filter_app, length_app. cbn.
  destruct (p e); reflexivity.
Qed.

Lemma run_hooks_cons ctx call calls w :
  run_hooks ctx (call :: calls) w = run_hooks ctx calls (after (dispatch ctx call) w).
Proof. reflexivity. Qed.

(** A reflexive and transitive relation that every hook call of a kind [P]
    respects holds along every run of such calls. *)
Lemma run_hooks_rel ctx (P : HookCall -> Prop) (R : World -> World -> Prop) :
  (forall w, R w w) ->
  (forall w1 w2 w3, R w1 w2 -> R w2 w3 -> R w1 w3) ->
  (forall call w, P call -> R w (after (dispatch ctx call) w)) ->
  forall calls w, Forall P calls -> R w (run_hooks ctx calls w).
Proof.
  intros Hrefl Htrans Hstep calls.
  induction calls as [|call calls IH]; intros w Hall.
  - apply Hrefl.
  - rewrite run_hooks_cons. inversion Hall as [|? ? Hcall Hrest]; subst.
    eapply Htrans; [apply Hstep, Hcall | apply IH, Hrest].
Qed.

Lemma Forall_any_call calls : Forall any_call calls.
Proof. induction calls; constructor; [exact I | assumption]. Qed.

(** *** The health flag *)

Lemma health_step_dispatch ctx call w :
  any_call call -> health_step w (after (dispatch ctx call) w).
Proof.
  intros _. apply wp_after.
  destruct w as [[cache flag shown current initialized] tr].
  destruct call; wp_run.
  all: unfold health_step; wp_red; rewrite ?count_snoc; cbn [is_health_probe unknown]; finish.
Qed.

Lemma health_step_refl w : health_step w w.
Proof. unfold health_step. repeat split; auto. Qed.

Lemma health_step_trans w1 w2 w3 :
  health_step w1 w2 -> health_step w2 w3 -> health_step w1 w3.
Proof.
  unfold health_step. intros (H1 & H3) (H4 & H6).
  split; [lia|]. intros b Hb. apply H6, H3, Hb.
Qed.

Lemma health_step_run ctx calls w : health_step w (run_hooks ctx calls w).
Proof.
  apply (run_hooks_rel ctx any_call);
    auto using health_step_refl, health_step_dispatch, Forall_any_call.
  apply health_step_trans.
Qed.

Lemma health_step_check ctx w : health_step w (after (checkWorkerAndToast ctx) w).
Proof.
  apply wp_after.
  destruct w as [[cache flag shown current initialized] tr].
  wp_run; unfold health_step; wp_red; rewrite ?count_snoc; cbn [is_health_probe unknown]; finish.
Qed.

Lemma check_determines ctx w :
  exists b, workerHealthy (st (after (checkWorkerAndToast ctx) w)) = Some b.
Proof.
  apply (wp_after _ (fun w' => exists b, workerHealthy (st w') = Some b)).
  destruct w as [[cache flag shown current initialized] tr].
  wp_run; eauto.
Qed.

(** *** The startup toast *)

Lemma is_init_toast_active ctx :
  is_init_toast ctx (ShowToast ("Memory active · " +:+ projectName ctx) success 3000) = true.
Proof. unfold is_init_toast. rewrite String.eqb_refl. reflexivity. Qed.

Lemma is_init_toast_offline ctx :
  is_init_toast ctx (ShowToast "Worker offline — start Claude Code first" warning 5000) = true.
Proof. cbn. rewrite orb_true_r. reflexivity. Qed.

Lemma is_init_toast_info ctx message duration :
  is_init_toast ctx (ShowToast message info duration) = false.
Proof. cbn. rewrite !andb_false_r. reflexivity. Qed.

Lemma is_init_toast_summarized ctx :
  is_init_toast ctx (ShowToast "Session summarized" success 2000) = false.
Proof. cbn. rewrite !andb_false_r. reflexivity. Qed.

Lemma toast_step_refl ctx w : toast_step ctx w w.
Proof. unfold toast_step. repeat split; auto. Qed.

Lemma toast_step_trans ctx w1 w2 w3 :
  toast_step ctx w1 w2 -> toast_step ctx w2 w3 -> toast_step ctx w1 w3.
Proof.
  unfold toast_step. intros (H1 & H3) (H4 & H6).
  split; [lia|]. intros Hb. apply H6, H3, Hb.
Qed.

Lemma toast_step_dispatch ctx call w :
  any_call call -> toast_step ctx w (after (dispatch ctx call) w).
Proof.
  intros _. apply wp_after.
  destruct w as [[cache flag shown current initialized] tr].
  destruct call; wp_run.
  all: unfold toast_step; wp_red;
    rewrite ?count_snoc, ?is_init_toast_active, ?is_init_toast_offline,
      ?is_init_toast_info, ?is_init_toast_summarized;
    cbn [is_init_toast pending]; finish.
Qed.

Lemma toast_step_run ctx calls w : toast_step ctx w (run_hooks ctx calls w).
Proof.
  apply (run_hooks_rel ctx any_call);
    auto using toast_step_refl, toast_step_dispatch, Forall_any_call.
  apply toast_step_trans.
Qed.

Lemma toast_step_check ctx w : toast_step ctx w (after (checkWorkerAndToast ctx) w).
Proof.
  apply wp_after.
  destruct w as [[cache flag shown current initialized] tr].
  wp_run;
    unfold toast_step; wp_red;
    rewrite ?count_snoc, ?is_init_toast_active, ?is_init_toast_offline,
      ?is_init_toast_info, ?is_init_toast_summarized;
    cbn [is_init_toast pending]; finish.
Qed.

Lemma check_shows ctx w : initToastShown (st (after (checkWorkerAndToast ctx) w)) = true.
Proof.
  apply (wp_after _ (fun w' => initToastShown (st w') = true)).
  destruct w as [[cache flag shown current initialized] tr].
  wp_run; reflexivity.
Qed.

(** *** Session initialization *)

Lemma member_add (sessionId : string) (initialized : gset string) :
  bool_decide (sessionId ∈ {[sessionId]} ∪ initialized) = true.
Proof. apply bool_decide_eq_true_2. set_solver. Qed.

Lemma is_session_init_same sessionId project prompt :
  is_session_init sessionId (PostSessionInit sessionId project prompt) = true.
Proof. cbn. apply String.eqb_refl. Qed.

Lemma init_step_refl sessionId w : init_step sessionId w w.
Proof. unfold init_step. split; lia. Qed.

Lemma init_step_trans sessionId w1 w2 w3 :
  init_step sessionId w1 w2 -> init_step sessionId w2 w3 -> init_step sessionId w1 w3.
Proof. unfold init_step. intros [] []. split; lia. Qed.

Lemma init_step_ensure ctx sessionId prompt w :
  init_step sessionId w (after (ensureSessionInit ctx sessionId prompt) w).
Proof.
  apply wp_after.
  destruct w as [[cache flag shown current initialized] tr].
  wp_run;
    unfold init_step, may_init; wp_red;
    rewrite ?count_snoc, ?is_session_init_same, ?member_add; use_tests;
    cbn [is_session_init]; finish.
Qed.

Lemma member_add_other (sessionId other : string) (initialized : gset string) :
  other <> sessionId ->
  bool_decide (sessionId ∈ {[other]} ∪ initialized) = bool_decide (sessionId ∈ initialized).
Proof.
  intros Hne. apply bool_decide_ext. rewrite elem_of_union, elem_of_singleton.
  split; [intros [Heq|Hin]; [congruence | exact Hin] | intros Hin; right; exact Hin].
Qed.

Lemma init_step_dispatch ctx sessionId call w :
  any_call call -> init_step sessionId w (after (dispatch ctx call) w).
Proof.
  intros _. apply wp_after.
  destruct w as [[cache flag shown current initialized] tr].
  destruct call; wp_run.
  all: unfold init_step, may_init; wp_red; rewrite ?count_snoc; cbn [is_session_init];
    repeat match goal with
           | |- context [String.eqb ?a ?b] => destruct (String.eqb_spec a b); [subst|]
           end;
    rewrite ?member_add; rewrite ?member_add_other by assumption; use_tests;
    repeat match goal with
           | |- context [bool_decide ?P] => destruct (bool_decide P)
           end;
    repeat match goal with
           | |- context [match ?x with _ => _ end] => destruct x
           end;
    split; lia.
Qed.

Lemma init_step_run ctx sessionId calls w :
  init_step sessionId w (run_hooks ctx calls w).
Proof.
  apply (run_hooks_rel ctx any_call);
    auto using init_step_refl, init_step_dispatch, Forall_any_call.
  apply init_step_trans.
Qed.

Lemma init_step_each ctx sessionId prompts w :
  init_step sessionId w (ensure_each ctx sessionId prompts w).
Proof.
  revert w. induction prompts as [|prompt prompts IH]; intros w.
  - apply init_step_refl.
  - cbn. eapply init_step_trans; [apply init_step_ensure | apply IH].
Qed.

Lemma ensure_initialized ctx sessionId prompt w :
  sessionId ∈ initializedSessions (st w) ->
  ensureSessionInit ctx sessionId prompt w = (Ok true, w).
Proof.
  intros Hin. unfold ensureSessionInit, bind, gets, ret.
  rewrite bool_decide_eq_true_2 by exact Hin. reflexivity.
Qed.

Lemma ensure_true_initialized ctx sessionId prompt w :
  fst (ensureSessionInit ctx sessionId prompt w) = Ok true ->
  sessionId ∈ initializedSessions (st (after (ensureSessionInit ctx sessionId prompt) w)).
Proof.
  change (wp (ensureSessionInit ctx sessionId prompt)
            (fun r w' => r = Ok true -> sessionId ∈ initializedSessions (st w')) w).
  destruct w as [[cache flag shown current initialized] tr].
  wp_run; wp_red; intros Hr; try discriminate Hr;
    try (eapply bool_decide_eq_true_1; eassumption); set_solver.
Qed.

(** *** The context cache *)

Lemma cache_step_refl w : cache_step w w.
Proof. unfold cache_step. repeat split; auto. Qed.

Lemma cache_step_trans w1 w2 w3 : cache_step w1 w2 -> cache_step w2 w3 -> cache_step w1 w3.
Proof.
  unfold cache_step. intros (H1 & H2 & H3) (H4 & H5 & H6).
  repeat split; try lia. intros v Hv. apply H6, H3, Hv.
Qed.

Lemma cache_step_dispatch ctx call w :
  keeps_cache call -> cache_step w (after (dispatch ctx call) w).
Proof.
  intros Hkeep. apply wp_after.
  destruct w as [[cache flag shown current initialized] tr].
  destruct call as [| |[ty iid sid]| | | |]; wp_run.
  all: try (exfalso;
            unfold keeps_cache, is_session_created in Hkeep;
            cbn [event_type info_id] in Hkeep;
            match goal with
            | E1 : String.eqb _ _ = true, E2 : truthy_str _ = true |- _ =>
                rewrite E1, E2 in Hkeep; discriminate Hkeep
            end).
  all: unfold cache_step; wp_red; rewrite ?count_snoc; cbn [is_context_fetch unfetched]; finish.
Qed.

Lemma cache_step_run ctx calls w :
  Forall keeps_cache calls -> cache_step w (run_hooks ctx calls w).
Proof.
  apply (run_hooks_rel ctx keeps_cache);
    auto using cache_step_refl, cache_step_dispatch.
  apply cache_step_trans.
Qed.

Lemma cached_hit ctx v w :
  contextCache (st w) = Some v -> getCachedContext ctx w = (Ok v, w).
Proof.
  intros Hv. unfold getCachedContext, bind, gets, ret. rewrite Hv. reflexivity.
Qed.

Lemma cached_miss ctx w :
  contextCache (st w) = None ->
  exists v,
    WorkerClient.getContext ctx (projectName ctx) w
    = (Ok v, push (GetContextInject (projectName ctx)) w)
    /\ getCachedContext ctx w
       = (Ok v, upd (set_contextCache (Some v)) (push (GetContextInject (projectName ctx)) w)).
Proof.
  intros Hv. unfold getCachedContext, bind, gets, ret, modify. rewrite Hv.
  destruct (getContext_eq ctx (projectName ctx) w) as [v Hfetch]. exists v.
  rewrite Hfetch. split; reflexivity.
Qed.

(** *** The tracker invariant *)

Lemma tracker_inv_dispatch ctx call w :
  any_call call -> tracker_inv w -> tracker_inv (after (dispatch ctx call) w).
Proof.
  intros _. apply (wp_after _ (fun w' => tracker_inv w -> tracker_inv w')).
  destruct w as [[cache flag shown current initialized] tr].
  destruct call; wp_run.
  all: unfold tracker_inv; wp_red; intros [Hinit Hshown]; split;
    solve [ left; reflexivity
          | right; reflexivity
          | left; destruct Hinit as [Hinit|Hinit]; [exact Hinit | discriminate Hinit]
          | right; destruct Hinit as [Hinit|Hinit]; [discriminate Hinit | exact Hinit]
          | destruct Hshown as [Hshown|Hshown]; [discriminate Hshown | right; exact Hshown]
          | destruct Hshown as [Hshown|Hshown]; [left; exact Hshown | discriminate Hshown]
          | assumption ].
Qed.

Lemma tracker_inv_init : tracker_inv init_world.
Proof. split; [right | left]; reflexivity. Qed.

Lemma tracker_inv_run ctx calls : tracker_inv (run_hooks ctx calls init_world).
Proof.
  apply (run_hooks_rel ctx any_call (fun w w' => tracker_inv w -> tracker_inv w'));
    auto using tracker_inv_dispatch, Forall_any_call, tracker_inv_init.
Qed.

(** *** Session events *)

Lemma session_created_resets ctx ev w :
  is_session_created ev = true ->
  contextCache (st (after (event ctx ev) w)) = None
  /\ initializedSessions (st (after (event ctx ev) w)) = initializedSessions (st w).
Proof.
  intros Hev. apply andb_true_iff in Hev as [Hty Hid].
  apply (wp_after _ (fun w' => contextCache (st w') = None
                               /\ initializedSessions (st w') = initializedSessions (st w))).
  destruct w as [[cache flag shown current initialized] tr].
  destruct ev as [ty iid esid]. cbn [event_type info_id] in Hty, Hid.
  apply String.eqb_eq in Hty. subst ty.
  wp_run; split; reflexivity.
Qed.

(** *** The backward scans of the idle handler *)

Lemma scan_back_app r (l : list Message) m n d :
  n <= length l -> scan_back r (l ++ [m]) n d = scan_back r l n d.
Proof.
  induction n as [|i IH]; intros Hn; [reflexivity|].
  cbn [scan_back]. rewrite lookup_app_l by lia.
  destruct (l !! i) as [x|]; [|reflexivity].
  destruct (String.eqb (role x) r); [reflexivity|]. apply IH. lia.
Qed.

(** The scan finds the last message of the role. *)
Lemma scan_back_last r (l : list Message) d :
  scan_back r l (length l) d
  = match last (List.filter (has_role r) l) with
    | Some m => extractTextFromParts (parts m)
    | None => d
    end.
Proof.
  induction l as [|m l IH] using rev_ind; [reflexivity|].
  rewrite length_app, Nat.add_1_r, List.filter_app. cbn [scan_back List.filter length].
  rewrite list_lookup_middle by reflexivity. unfold has_role at 2.
  destruct (String.eqb (role m) r).
  - rewrite last_snoc. reflexivity.
  - rewrite app_nil_r, scan_back_app by lia. apply IH.
Qed.

Lemma may_init_le sessionId s : may_init sessionId s <= 1.
Proof.
  unfold may_init. destruct (bool_decide _); [lia|].
  destruct (workerHealthy s) as [[]|]; lia.
Qed.

Lemma created_with_id ev sessionId :
  JsString.truthy sessionId = true ->
  event_type ev = "session.created" /\ info_id ev = Some sessionId ->
  is_session_created ev = true.
Proof.
  intros Hid [Hty Hinfo]. unfold is_session_created. rewrite Hty, Hinfo. cbn [truthy_str].
  rewrite Hid. reflexivity.
Qed.

(** Whatever the worker answers to the request, a healthy worker's session
    ends up initialized. *)
Lemma ensure_marks_when_healthy ctx sessionId prompt w :
  workerHealthy (st w) = Some true ->
  fst (ensureSessionInit ctx sessionId prompt w) = Ok true
  /\ sessionId ∈ initializedSessions (st (after (ensureSessionInit ctx sessionId prompt) w)).
Proof.
  intros Hflag.
  change (wp (ensureSessionInit ctx sessionId prompt)
            (fun r w' => r = Ok true /\ sessionId ∈ initializedSessions (st w')) w).
  destruct w as [[cache flag shown current initialized] tr].
  cbn [st workerHealthy] in Hflag. subst flag.
  wp_run; (split; [reflexivity|]);
    try (eapply bool_decide_eq_true_1; eassumption); set_solver.
Qed.

(** ** The run without overlap

    An async function whose awaits are answered at once does what its
    embedding in [M] does: [run_hooks] is the schedule in which every hook
    runs to its end before the next one starts. *)

Lemma bind_ext {A B} (m m' : M A) (k k' : A -> M B) (w : World) :
  (forall w, m w = m' w) -> (forall a w, k a w = k' a w) -> bind m k w = bind m' k' w.
Proof.
  intros Hm Hk. unfold bind. rewrite Hm. destruct (m' w) as [[a|e] w']; [apply Hk | reflexivity].
Qed.

Lemma try_catch_ext {A} (m m' : M A) (h h' : string -> M A) (w : World) :
  (forall w, m w = m' w) -> (forall e w, h e w = h' e w) ->
  try_catch m h w = try_catch m' h' w.
Proof.
  intros Hm Hh. unfold try_catch. rewrite Hm.
  destruct (m' w) as [[a|e] w']; [reflexivity | apply Hh].
Qed.

Lemma complete_then {A B} (ctx : Ctx) (p : Pending A) (k : A -> Async B) (tr : list Effect) :
  complete ctx (Async.then_ p k) tr
  = match complete ctx p tr with
    | (Ok a, w') => complete ctx (k a (st w')) (trace w')
    | (Throw e, w') => (Throw e, w')
    end.
Proof.
  revert tr. induction p as [s [a|e] | s request resume IH | s call resume IH]; intros tr;
    cbn; try reflexivity; apply IH.
Qed.

Lemma complete_caught {A} (ctx : Ctx) (p : Pending A) (h : string -> Async A)
    (tr : list Effect) :
  complete ctx (Async.caught p h) tr
  = match complete ctx p tr with
    | (Ok a, w') => (Ok a, w')
    | (Throw e, w') => complete ctx (h e (st w')) (trace w')
    end.
Proof.
  revert tr. induction p as [s [a|e] | s request resume IH | s call resume IH]; intros tr;
    cbn; try reflexivity; apply IH.
Qed.

Lemma alone_bind {A B} (ctx : Ctx) (m : Async A) (k : A -> Async B) (w : World) :
  alone ctx (Async.bind m k) w = bind (alone ctx m) (fun a => alone ctx (k a)) w.
Proof.
  unfold alone, Async.bind, bind. rewrite complete_then.
  destruct (complete ctx (m (st w)) (trace w)) as [[a|e] w']; reflexivity.
Qed.

Lemma alone_try_catch {A} (ctx : Ctx) (m : Async A) (h : string -> Async A) (w : World) :
  alone ctx (Async.try_catch m h) w
  = try_catch (alone ctx m) (fun e => alone ctx (h e)) w.
Proof.
  unfold alone, Async.try_catch, try_catch. rewrite complete_caught.
  destruct (complete ctx (m (st w)) (trace w)) as [[a|e] w']; reflexivity.
Qed.

Lemma alone_ret {A} (ctx : Ctx) (a : A) (w : World) : alone ctx (Async.ret a) w = ret a w.
Proof. destruct w. reflexivity. Qed.

Lemma alone_throw {A} (ctx : Ctx) (e : string) (w : World) :
  alone ctx (@Async.throw A e) w = throw e w.
Proof. destruct w. reflexivity. Qed.

Lemma alone_gets {A} (ctx : Ctx) (f : State -> A) (w : World) :
  alone ctx (Async.gets f) w = gets f w.
Proof. destruct w. reflexivity. Qed.

Lemma alone_modify (ctx : Ctx) (f : State -> State) (w : World) :
  alone ctx (Async.modify f) w = modify f w.
Proof. reflexivity. Qed.

Lemma alone_fetch (ctx : Ctx) (request : Effect) (w : World) :
  alone ctx (Async.fetch request) w = fetch ctx request w.
Proof.
  unfold alone, Async.fetch, fetch. cbn. destruct (fetch_at ctx (length (trace w))); reflexivity.
Qed.

Lemma alone_host_call (ctx : Ctx) (call : Effect) (w : World) :
  alone ctx (Async.host_call call) w = host_call ctx call w.
Proof.
  unfold alone, Async.host_call, host_call. cbn.
  destruct (host_at ctx (length (trace w))); reflexivity.
Qed.

Lemma alone_response_json (ctx : Ctx) (r : Response) (w : World) :
  alone ctx (Async.response_json r) w = response_json r w.
Proof.
  unfold Async.response_json, response_json.
  destruct (body r); [apply alone_ret | apply alone_throw].
Qed.

(** One step of the comparison of an async function with its embedding in
    [M]: the two have the same shape, and the leaves are the rules above. *)
Ltac alone_step :=
  lazymatch goal with
  | |- forall _, _ => intro
  | |- alone _ (Async.bind _ _) _ = _ => rewrite alone_bind; apply bind_ext
  | |- alone _ (Async.try_catch _ _) _ = _ => rewrite alone_try_catch; apply try_catch_ext
  | |- alone _ (Async.ret _) _ = _ => apply alone_ret
  | |- alone _ (Async.throw _) _ = _ => apply alone_throw
  | |- alone _ (Async.gets _) _ = _ => apply alone_gets
  | |- alone _ (Async.modify _) _ = _ => apply alone_modify
  | |- alone _ (Async.fetch _) _ = _ => apply alone_fetch
  | |- alone _ (Async.host_call _) _ = _ => apply alone_host_call
  | |- alone _ (Async.response_json _) _ = _ => apply alone_response_json
  | |- alone _ (if ?x then _ else _) _ = _ => destruct x
  | |- alone _ (match ?x with _ => _ end) _ = _ => destruct x
  end.

Ltac alone_run := repeat alone_step.

Lemma alone_isHealthy (ctx : Ctx) (w : World) :
  alone ctx Async.isHealthy w = WorkerClient.isHealthy ctx w.
Proof. unfold Async.isHealthy, WorkerClient.isHealthy. alone_run. Qed.

Lemma alone_sessionInit (ctx : Ctx) (sessionId project prompt : string) (w : World) :
  alone ctx (Async.sessionInit sessionId project prompt) w
  = WorkerClient.sessionInit ctx sessionId project prompt w.
Proof. unfold Async.sessionInit, WorkerClient.sessionInit. alone_run. Qed.

Lemma alone_sendObservation (ctx : Ctx) (sessionId tool : string) (input : JSON)
    (output cwd : string) (w : World) :
  alone ctx (Async.sendObservation sessionId tool input output cwd) w
  = WorkerClient.sendObservation ctx sessionId tool input output cwd w.
Proof. unfold Async.sendObservation, WorkerClient.sendObservation. alone_run. Qed.

Lemma alone_summarize (ctx : Ctx) (sessionId user assistant : string) (w : World) :
  alone ctx (Async.summarize sessionId user assistant) w
  = WorkerClient.summarize ctx sessionId user assistant w.
Proof. unfold Async.summarize, WorkerClient.summarize. alone_run. Qed.

Lemma alone_completeSession (ctx : Ctx) (sessionId : string) (w : World) :
  alone ctx (Async.completeSession sessionId) w = WorkerClient.completeSession ctx sessionId w.
Proof. unfold Async.completeSession, WorkerClient.completeSession. alone_run. Qed.

Lemma alone_getContext (ctx : Ctx) (project : string) (w : World) :
  alone ctx (Async.getContext project) w = WorkerClient.getContext ctx project w.
Proof. unfold Async.getContext, WorkerClient.getContext. alone_run. Qed.

Lemma alone_search (ctx : Ctx) (query project : string) (w : World) :
  alone ctx (Async.search query project) w = WorkerClient.search ctx query project w.
Proof. unfold Async.search, WorkerClient.search. alone_run. Qed.

Lemma alone_toast (ctx : Ctx) (message : string) (variant : Variant) (duration : Z)
    (w : World) :
  alone ctx (Async.toast message variant duration) w = toast ctx message variant duration w.
Proof. unfold Async.toast, toast. alone_run. Qed.

Lemma alone_sendStatusMessage (ctx : Ctx) (sessionId text : string) (w : World) :
  alone ctx (Async.sendStatusMessage sessionId text) w = sendStatusMessage ctx sessionId text w.
Proof.
  unfold Async.sendStatusMessage, sendStatusMessage. alone_run. apply alone_toast.
Qed.

Lemma alone_getCachedContext (ctx : Ctx) (w : World) :
  alone ctx (Async.getCachedContext ctx) w = getCachedContext ctx w.
Proof.
  unfold Async.getCachedContext, getCachedContext. alone_run. apply alone_getContext.
Qed.

Lemma alone_checkWorkerAndToast (ctx : Ctx) (w : World) :
  alone ctx (Async.checkWorkerAndToast ctx) w = checkWorkerAndToast ctx w.
Proof.
  unfold Async.checkWorkerAndToast, checkWorkerAndToast.
  alone_run; first [apply alone_isHealthy | apply alone_toast].
Qed.

Lemma alone_ensureSessionInit (ctx : Ctx) (sessionId : string) (prompt : option string)
    (w : World) :
  alone ctx (Async.ensureSessionInit ctx sessionId prompt) w
  = ensureSessionInit ctx sessionId prompt w.
Proof.
  unfold Async.ensureSessionInit, ensureSessionInit.
  alone_run; first [apply alone_checkWorkerAndToast | apply alone_sessionInit].
Qed.

Lemma alone_command_execute_before (ctx : Ctx) (command : string)
    (sessionID : option string) (w : World) :
  alone ctx (Async.command_execute_before ctx command sessionID) w
  = command_execute_before ctx command sessionID w.
Proof.
  unfold Async.command_execute_before, command_execute_before.
  alone_run;
    first [apply alone_checkWorkerAndToast | apply alone_getCachedContext
          | apply alone_sendStatusMessage].
Qed.

Lemma alone_on_session_created (ctx : Ctx) (ev : Event) (w : World) :
  alone ctx (Async.on_session_created ctx ev) w = on_session_created ctx ev w.
Proof.
  unfold Async.on_session_created, on_session_created. cbv zeta.
  alone_run. apply alone_checkWorkerAndToast.
Qed.

Lemma alone_on_session_idle (ctx : Ctx) (ev : Event) (w : World) :
  alone ctx (Async.on_session_idle ev) w = on_session_idle ctx ev w.
Proof.
  unfold Async.on_session_idle, on_session_idle.
  alone_run;
    first [apply alone_summarize | apply alone_completeSession | apply alone_toast].
Qed.

Lemma alone_event (ctx : Ctx) (ev : Event) (w : World) :
  alone ctx (Async.event ctx ev) w = event ctx ev w.
Proof.
  unfold Async.event, event.
  alone_run; first [apply alone_on_session_created | apply alone_on_session_idle].
Qed.

Lemma alone_chat_message (ctx : Ctx) (sessionID : option string)
    (output_parts : option (list Part)) (w : World) :
  alone ctx (Async.chat_message ctx sessionID output_parts) w
  = chat_message ctx sessionID output_parts w.
Proof.
  unfold Async.chat_message, chat_message. cbv zeta.
  alone_run. apply alone_ensureSessionInit.
Qed.

Lemma alone_system_transform (ctx : Ctx) (sessionID : option string) (system : list string)
    (w : World) :
  alone ctx (Async.system_transform ctx sessionID system) w
  = system_transform ctx sessionID system w.
Proof.
  unfold Async.system_transform, system_transform.
  alone_run;
    first [apply alone_ensureSessionInit | apply alone_checkWorkerAndToast
          | apply alone_getCachedContext].
Qed.

Lemma alone_tool_execute_after (ctx : Ctx) (sessionID : option string) (tool : string)
    (args : option JSON) (output : string) (w : World) :
  alone ctx (Async.tool_execute_after ctx sessionID tool args output) w
  = tool_execute_after ctx sessionID tool args output w.
Proof.
  unfold Async.tool_execute_after, tool_execute_after.
  alone_run; first [apply alone_ensureSessionInit | apply alone_sendObservation].
Qed.

(** Every hook, run alone, is the hook of the sequential embedding. *)
Lemma alone_dispatch (ctx : Ctx) (call : HookCall) (w : World) :
  alone ctx (Async.dispatch ctx call) w = dispatch ctx call w.
Proof.
  destruct call; cbn [Async.dispatch dispatch].
  - alone_run. apply alone_ret.
  - apply alone_command_execute_before.
  - apply alone_event.
  - apply alone_chat_message.
  - alone_run. apply alone_system_transform.
  - apply alone_tool_execute_after.
  - alone_run. apply alone_search.
Qed.

(** *** A hook that nothing interrupts *)

Lemma play_app {A} (ctx : Ctx) (ms ms' : list (Move A)) (pool : Pool A) :
  play ctx (ms ++ ms') pool = play ctx ms' (play ctx ms pool).
Proof. apply fold_left_app. Qed.

(** A task that is resumed until it is done ends where [complete] ends. *)
Lemma resume_to_end {A} (ctx : Ctx) (p : Pending A) (tr : list Effect) (ts : list (Task A)) :
  exists k,
    play ctx (repeat (Resume (length ts)) k)
         {| shared := fst (settle p tr); tasks := ts ++ [snd (settle p tr)] |}
    = {| shared := snd (complete ctx p tr);
         tasks := ts ++ [Settled (fst (complete ctx p tr))] |}.
Proof.
  revert tr. induction p as [s r | s request resume IH | s call resume IH]; intros tr.
  - exists 0. reflexivity.
  - destruct (IH (fetch_at ctx (length tr)) s (tr ++ [request])) as [k Hk].
    exists (S k). cbn [repeat play fold_left move settle fst snd tasks shared st trace complete].
    rewrite list_lookup_middle by reflexivity.
    destruct (settle (resume (fetch_at ctx (length tr)) s) (tr ++ [request])) as [w t] eqn:Hs.
    cbn [fst snd] in Hk.
    replace (<[length ts := t]> (ts ++ [OnFetch (length tr) resume])) with (ts ++ [t])
      by (rewrite insert_app_r_alt, Nat.sub_diag by reflexivity; reflexivity).
    exact Hk.
  - destruct (IH (host_at ctx (length tr)) s (tr ++ [call])) as [k Hk].
    exists (S k). cbn [repeat play fold_left move settle fst snd tasks shared st trace complete].
    rewrite list_lookup_middle by reflexivity.
    destruct (settle (resume (host_at ctx (length tr)) s) (tr ++ [call])) as [w t] eqn:Hs.
    cbn [fst snd] in Hk.
    replace (<[length ts := t]> (ts ++ [OnHost (length tr) resume])) with (ts ++ [t])
      by (rewrite insert_app_r_alt, Nat.sub_diag by reflexivity; reflexivity).
    exact Hk.
Qed.

Lemma start_to_end {A} (ctx : Ctx) (f : Async A) (pool : Pool A) :
  exists k,
    play ctx (Start f :: repeat (Resume (length (tasks pool))) k) pool
    = {| shared := snd (alone ctx f (shared pool));
         tasks := tasks pool ++ [Settled (fst (alone ctx f (shared pool)))] |}.
Proof.
  destruct (resume_to_end ctx (f (st (shared pool))) (trace (shared pool)) (tasks pool))
    as [k Hk].
  exists k. cbn [play fold_left move].
  destruct (settle (f (st (shared pool))) (trace (shared pool))) as [w t].
  exact Hk.
Qed.

(** [run_hooks] is a schedule of the hooks: the one in which each hook is
    done before the next one starts. *)
Lemma run_hooks_is_a_schedule (ctx : Ctx) (calls : list HookCall) (pool : Pool unit) :
  exists moves done,
    play ctx moves pool
    = {| shared := run_hooks ctx calls (shared pool);
         tasks := tasks pool ++ List.map Settled done |}
    /\ length done = length calls.
Proof.
  revert pool. induction calls as [|call calls IH]; intros pool.
  - exists [], []. split; [|reflexivity]. cbn. rewrite app_nil_r. destruct pool; reflexivity.
  - destruct (start_to_end ctx (Async.dispatch ctx call) pool) as [k Hk].
    destruct (IH {| shared := snd (alone ctx (Async.dispatch ctx call) (shared pool));
                    tasks := tasks pool
                             ++ [Settled (fst (alone ctx (Async.dispatch ctx call)
                                                 (shared pool)))] |})
      as (moves & done & Hplay & Hlen).
    exists ((Start (Async.dispatch ctx call) :: repeat (Resume (length (tasks pool))) k)
            ++ moves),
           (fst (alone ctx (Async.dispatch ctx call) (shared pool)) :: done).
    split; [|cbn; rewrite Hlen; reflexivity].
    rewrite play_app, Hk, Hplay. cbn [shared tasks List.map].
    rewrite alone_dispatch, <- app_assoc. reflexivity.
Qed.

(** ** Properties of the specification *)

(** C6. The code when the first two hooks of a process overlap.
    [checkWorkerAndToast] tests [workerHealthy === null] before the await of
    the probe and writes the flag after it. The event [session.created] and
    the system-prompt transform of the first turn both start while the flag
    is unknown, so both probe, whatever the worker and the host answer. With
    a worker that answers the first probe and refuses the second one, the
    first answer sets the flag to [true] and shows [Memory active], and the
    second answer sets the flag, which was determined, to [false], where it
    stays. Both hooks return. Run one after the other, the same two hooks
    probe once. *)
Theorem overlapping_hooks_probe_twice :
  (forall ctx,
     workerHealthy (st (shared (first_turn_overlapping ctx 2))) = None
     /\ trace (shared (first_turn_overlapping ctx 2)) = [GetHealth; GetHealth])
  /\ workerHealthy (st (shared (first_turn_overlapping ctx_second_refused 3))) = Some true
  /\ workerHealthy (st (shared (first_turn_overlapping ctx_second_refused 4))) = Some false
  /\ (results (first_turn_overlapping ctx_second_refused 5) = [Some (Ok tt); Some (Ok tt)]
      /\ workerHealthy (st (shared (first_turn_overlapping ctx_second_refused 5)))
         = Some false
      /\ trace (shared (first_turn_overlapping ctx_second_refused 5))
         = [GetHealth; GetHealth; ShowToast "Memory active · demo" success 3000]
      /\ count is_health_probe (trace (shared (first_turn_overlapping ctx_second_refused 5)))
         = 2)
  /\ (count is_health_probe (trace (run_hooks ctx_second_refused first_turn init_world)) = 1
      /\ workerHealthy (st (run_hooks ctx_second_refused first_turn init_world))
         = Some true).
Proof.
  split; [intros ctx; split; reflexivity|].
  repeat split; vm_compute; reflexivity.
Qed.

(** C8. The startup toast is shown exactly once per process: a call of
    [checkWorkerAndToast] that finds [initToastShown] unset shows it and sets
    the flag; once the flag is set, no call of [checkWorkerAndToast] and no
    sequence of hook calls shows it again; and in every run from the initial
    state the number of startup toasts is one if the flag is set and zero
    otherwise. *)
Theorem init_toast_shown_exactly_once (ctx : Ctx) :
  (forall w, initToastShown (st w) = false ->
     let w' := after (checkWorkerAndToast ctx) w in
     initToastShown (st w') = true
     /\ count (is_init_toast ctx) (trace w') = count (is_init_toast ctx) (trace w) + 1)
  /\ (forall w, initToastShown (st w) = true ->
        let w' := after (checkWorkerAndToast ctx) w in
        initToastShown (st w') = true
        /\ count (is_init_toast ctx) (trace w') = count (is_init_toast ctx) (trace w))
  /\ (forall calls w, initToastShown (st w) = true ->
        let w' := run_hooks ctx calls w in
        initToastShown (st w') = true
        /\ count (is_init_toast ctx) (trace w') = count (is_init_toast ctx) (trace w))
  /\ (forall calls,
        let w' := run_hooks ctx calls init_world in
        count (is_init_toast ctx) (trace w') = if initToastShown (st w') then 1 else 0)
  /\ (forall calls,
        count (is_init_toast ctx)
          (trace (run_hooks ctx calls (after (checkWorkerAndToast ctx) init_world))) = 1).
Proof.
  assert (Hfirst : forall w, initToastShown (st w) = false ->
     initToastShown (st (after (checkWorkerAndToast ctx) w)) = true
     /\ count (is_init_toast ctx) (trace (after (checkWorkerAndToast ctx) w))
        = count (is_init_toast ctx) (trace w) + 1).
  { intros w Hw. pose proof (check_shows ctx w) as Hs.
    destruct (toast_step_check ctx w) as (H1 & _).
    rewrite Hs, Hw in H1. cbn in H1. split; [exact Hs | lia]. }
  assert (Hlater : forall calls w, initToastShown (st w) = true ->
     initToastShown (st (run_hooks ctx calls w)) = true
     /\ count (is_init_toast ctx) (trace (run_hooks ctx calls w))
        = count (is_init_toast ctx) (trace w)).
  { intros calls w Hw. destruct (toast_step_run ctx calls w) as (H1 & H3).
    rewrite (H3 Hw) in *. rewrite Hw in H1. cbn in H1. split; [reflexivity | lia]. }
  split; [exact Hfirst|].
  split; [|split; [exact Hlater|split]].
  - intros w Hw. destruct (toast_step_check ctx w) as (H1 & H3).
    cbn zeta. rewrite (H3 Hw) in *. rewrite Hw in H1. cbn in H1. split; [reflexivity | lia].
  - intros calls. cbn zeta.
    destruct (toast_step_run ctx calls init_world) as (H1 & H3).
    cbn in H1. destruct (initToastShown (st (run_hooks ctx calls init_world)));
      cbn in H1; lia.
  - intros calls.
    destruct (Hfirst init_world eq_refl) as [Hs Hc].
    destruct (Hlater calls _ Hs) as [_ Hc']. rewrite Hc', Hc. reflexivity.
Qed.

Lemma init_toast_shown_exactly_once_witness :
  initToastShown (st (run_hooks ctx_online later_calls (first_check ctx_online))) = true
  /\ count (is_init_toast ctx_online)
       (trace (run_hooks ctx_online later_calls (first_check ctx_online)))
     = count (is_init_toast ctx_online) (trace (first_check ctx_online)).
Proof.
  apply (proj1 (proj2 (proj2 (init_toast_shown_exactly_once ctx_online)))
           later_calls (first_check ctx_online)).
  reflexivity.
Defined.

(** C3. [ensureSessionInit] is idempotent per session identifier: any number
    of calls with the same identifier add at most one remote initialization
    request to the trace (successful or not, so at most one successful one),
    and so does any sequence of hook calls; a call made when the identifier is
    in [initializedSessions] returns [true] and leaves the world, trace
    included, as it was; and a call that returns [true] leaves the identifier
    in the set. *)
Theorem ensureSessionInit_idempotent (ctx : Ctx) (sessionId : string) :
  (forall prompts w,
     count (is_session_init sessionId) (trace (ensure_each ctx sessionId prompts w))
     <= count (is_session_init sessionId) (trace w) + 1)
  /\ (forall calls w,
        count (is_session_init sessionId) (trace (run_hooks ctx calls w))
        <= count (is_session_init sessionId) (trace w) + 1)
  /\ (forall prompt w,
        sessionId ∈ initializedSessions (st w) ->
        ensureSessionInit ctx sessionId prompt w = (Ok true, w))
  /\ (forall prompt w,
        fst (ensureSessionInit ctx sessionId prompt w) = Ok true ->
        sessionId ∈ initializedSessions (st (after (ensureSessionInit ctx sessionId prompt) w))).
Proof.
  split; [|split; [|split]].
  - intros prompts w. destruct (init_step_each ctx sessionId prompts w) as [H _].
    pose proof (may_init_le sessionId (st w)). lia.
  - intros calls w. destruct (init_step_run ctx sessionId calls w) as [H _].
    pose proof (may_init_le sessionId (st w)). lia.
  - intros prompt w. apply ensure_initialized.
  - intros prompt w. apply ensure_true_initialized.
Qed.

Lemma ensureSessionInit_idempotent_witness :
  ensureSessionInit ctx_online "s1" None (first_message ctx_online)
  = (Ok true, first_message ctx_online).
Proof.
  apply (proj1 (proj2 (proj2 (ensureSessionInit_idempotent ctx_online "s1")))
           None (first_message ctx_online)).
  refine (bool_decide_unpack _ _). vm_compute. exact I.
Defined.

(** C10. The code when two callers of [getCachedContext] overlap.
    [getCachedContext] tests [contextCache !== undefined] before the await of
    the fetch and writes the slot after it. Two system prompts of an
    initialized session that are built at the same time, with a healthy
    worker and the slot uninitialized, both fetch, and no [session.created]
    event lies between the two requests. With a worker whose memory changes
    in between, the second answer replaces the stored first one, and the two
    prompts carry different contexts. Built one after the other, the same
    prompts fetch once. And a fetch in flight writes its answer into the slot
    after a [session.created] event has reset it: the first prompt of session
    [s2] then finds the context of session [s1] stored and fetches
    nothing. *)
Theorem overlapping_prompts_fetch_twice :
  (forall ctx w system system',
     contextCache (st w) = None -> workerHealthy (st w) = Some true ->
     initToastShown (st w) = true ->
     bool_decide ("s1" ∈ initializedSessions (st w)) = true ->
     trace (shared (play ctx [Start (Async.system_transform ctx (Some "s1") system);
                              Start (Async.system_transform ctx (Some "s1") system')]
                         (idle_pool w)))
     = trace w ++ [GetContextInject (projectName ctx); GetContextInject (projectName ctx)])
  /\ (contextCache (st (first_message ctx_notes)) = None
      /\ contextCache (st (shared (two_prompts ctx_notes 2))) = None
      /\ trace (shared (two_prompts ctx_notes 2))
         = trace (first_message ctx_notes)
           ++ [GetContextInject "demo"; GetContextInject "demo"])
  /\ contextCache (st (shared (two_prompts ctx_notes 3)))
     = Some (Some "notes of session one")
  /\ (contextCache (st (shared (two_prompts ctx_notes 4)))
      = Some (Some "notes of session two")
      /\ results (two_prompts ctx_notes 4)
         = [Some (Ok ["You are helpful.";
                      "[Claude-Mem] Memory Active. Previous Context:" +:+ Json.newline
                      +:+ "notes of session one"]);
            Some (Ok ["Write a title.";
                      "[Claude-Mem] Memory Active. Previous Context:" +:+ Json.newline
                      +:+ "notes of session two"])]
      /\ count is_context_fetch (trace (shared (two_prompts ctx_notes 4)))
         = count is_context_fetch (trace (first_message ctx_notes)) + 2)
  /\ count is_context_fetch
       (trace (run_hooks ctx_notes two_prompts_calls (first_message ctx_notes)))
     = count is_context_fetch (trace (first_message ctx_notes)) + 1
  /\ ((contextCache (st (shared (late_context ctx_notes 2))) = None
       /\ currentSessionId (st (shared (late_context ctx_notes 2))) = Some "s2"
       /\ results (late_context ctx_notes 2) = [None; Some (Ok tt)])
      /\ contextCache (st (shared (late_context ctx_notes 3)))
         = Some (Some "notes of session one")
      /\ results (late_context ctx_notes 5) = [Some (Ok tt); Some (Ok tt); Some (Ok tt)]
      /\ trace (shared (late_context ctx_notes 5))
         = trace (shared (late_context ctx_notes 2))
           ++ [PostSessionInit "s2" "demo" "SESSION_START"]).
Proof.
  split; [|repeat split; vm_compute; reflexivity].
  intros ctx w system system' Hcache Hflag Hshown Hin.
  destruct w as [[cache flag shown current initialized] tr].
  cbn [st trace contextCache workerHealthy initToastShown initializedSessions] in *.
  subst cache flag shown.
  unfold play, idle_pool. cbn [fold_left move shared tasks st trace].
  unfold Async.system_transform, Async.ensureSessionInit, Async.checkWorkerAndToast,
    Async.getCachedContext, Async.getContext, Async.bind, Async.gets, Async.ret,
    Async.try_catch, Async.fetch.
  change (JsString.truthy "s1") with true.
  repeat (cbv beta iota;
          cbn [Async.then_ Async.caught settle fst snd shared tasks st trace negb
               truthy_flag contextCache workerHealthy initToastShown initializedSessions
               set_contextCache];
          rewrite ?Hin).
  rewrite <- app_assoc. reflexivity.
Qed.

(** After the first message of session [s1], with the worker whose memory
    changes. *)
Lemma overlapping_prompts_fetch_twice_witness :
  trace (shared (play ctx_notes
                   [Start (Async.system_transform ctx_notes (Some "s1") ["You are helpful."]);
                    Start (Async.system_transform ctx_notes (Some "s1") ["Write a title."])]
                   (idle_pool (first_message ctx_notes))))
  = trace (first_message ctx_notes)
    ++ [GetContextInject (projectName ctx_notes); GetContextInject (projectName ctx_notes)].
Proof.
  apply (proj1 overlapping_prompts_fetch_twice ctx_notes (first_message ctx_notes)
           ["You are helpful."] ["Write a title."]); reflexivity.
Defined.

(** C7. For [session.created] events that carry the same identifier (a
    non-empty string): each one leaves [contextCache] uninitialized and
    [initializedSessions] as it was, whatever the world before it; and so
    does every non-empty sequence of them. *)
Theorem session_created_invalidates_cache_only (ctx : Ctx) (sessionId : string) :
  JsString.truthy sessionId = true ->
  let carries ev := event_type ev = "session.created" /\ info_id ev = Some sessionId in
  (forall ev w, carries ev ->
     contextCache (st (after (event ctx ev) w)) = None
     /\ initializedSessions (st (after (event ctx ev) w)) = initializedSessions (st w))
  /\ (forall evs w, evs <> [] -> Forall carries evs ->
        let w' := run_hooks ctx (List.map CallEvent evs) w in
        contextCache (st w') = None
        /\ initializedSessions (st w') = initializedSessions (st w)).
Proof.
  intros Hid carries.
  assert (Hone : forall ev w, carries ev ->
     contextCache (st (after (event ctx ev) w)) = None
     /\ initializedSessions (st (after (event ctx ev) w)) = initializedSessions (st w)).
  { intros ev w Hev. apply session_created_resets, (created_with_id ev sessionId); assumption. }
  split; [exact Hone|].
  intros evs. induction evs as [|ev evs IH]; intros w Hne Hall; [congruence|].
  inversion Hall as [|? ? Hev Hrest]; subst.
  cbn [List.map]. rewrite run_hooks_cons. cbn [dispatch].
  destruct (Hone ev w Hev) as [Hc Hs].
  destruct evs as [|ev' evs'].
  - cbn. split; assumption.
  - destruct (IH (after (event ctx ev) w)) as [Hc' Hs']; [congruence | assumption |].
    cbn zeta. rewrite Hs' in *. split; [exact Hc' | exact Hs].
Qed.

Lemma session_created_invalidates_cache_only_witness :
  contextCache
    (st (run_hooks ctx_online (List.map CallEvent three_created) (first_message ctx_online)))
  = None
  /\ initializedSessions
       (st (run_hooks ctx_online (List.map CallEvent three_created)
              (first_message ctx_online)))
     = initializedSessions (st (first_message ctx_online)).
Proof.
  apply (proj2 (session_created_invalidates_cache_only ctx_online "s1" eq_refl)
           three_created (first_message ctx_online)).
  - discriminate.
  - repeat constructor.
Defined.

(** C4. A [session.idle] event for a session whose history has the user
    messages [a], [b] and the assistant messages [x], [y], in this order and
    interleaved in any way: the hook returns, and what it adds to the trace is
    the request for the history, one summarize request with
    [last_user_message = b] and [last_assistant_message = y], one
    complete-session request, and the toast. *)
Theorem idle_summarizes_last_messages (ctx : Ctx) (ev : Event) (w : World)
    (sessionId : string) (messages : list Message) :
  event_type ev = "session.idle" ->
  or_str (event_sessionID ev) (currentSessionId (st w)) = Some sessionId ->
  JsString.truthy sessionId = true ->
  host_at ctx (length (trace w)) = HostResult (Some messages) ->
  List.filter (has_role "user") messages
  = [text_message "user" "a"; text_message "user" "b"] ->
  List.filter (has_role "assistant") messages
  = [text_message "assistant" "x"; text_message "assistant" "y"] ->
  event ctx ev w
  = (Ok tt,
     {| st := st w;
        trace := trace w ++ [SessionMessages sessionId;
                             PostSummarize sessionId "b" "y";
                             PostComplete sessionId;
                             ShowToast "Session summarized" success 2000] |})
  /\ count is_complete (trace (after (event ctx ev) w)) = count is_complete (trace w) + 1.
Proof.
  intros Hty Hsid Htruthy Hhost Huser Hassistant.
  assert (Heq : event ctx ev w
    = (Ok tt,
       {| st := st w;
          trace := trace w ++ [SessionMessages sessionId;
                               PostSummarize sessionId "b" "y";
                               PostComplete sessionId;
                               ShowToast "Session summarized" success 2000] |})).
  { apply wp_eq.
    destruct w as [s tr]. destruct ev as [ty iid esid].
    cbn [event_type event_sessionID st trace] in *. subst ty.
    wp_run. unfold push. cbn [st trace].
    rewrite !scan_back_last, Huser, Hassistant. cbn.
    rewrite <- !app_assoc. split; reflexivity. }
  split; [exact Heq|].
  unfold after. rewrite Heq. cbn [snd trace].
  unfold count. rewrite List.filter_app, length_app. cbn. reflexivity.
Qed.

Lemma idle_summarizes_last_messages_witness :
  event ctx_history (session_idle "s1") init_world
  = (Ok tt,
     {| st := st init_world;
        trace := trace init_world ++ [SessionMessages "s1";
                                      PostSummarize "s1" "b" "y";
                                      PostComplete "s1";
                                      ShowToast "Session summarized" success 2000] |})
  /\ count is_complete (trace (after (event ctx_history (session_idle "s1")) init_world))
     = count is_complete (trace init_world) + 1.
Proof.
  apply (idle_summarizes_last_messages ctx_history (session_idle "s1") init_world "s1"
           history_abxy); reflexivity.
Defined.

(** C5. When the body of the answer to [getContext] is the object [{}] or
    the value [null], whatever the status, [getContext] returns [null]. *)
Theorem getContext_empty_payload_is_null (ctx : Ctx) (project : string) (w : World)
    (status : bool) (data : JSON) :
  fetch_at ctx (length (trace w)) = FetchResponse {| ok := status; body := JsonBody data |} ->
  data = JObj [] \/ data = JNull ->
  fst (WorkerClient.getContext ctx project w) = Ok None.
Proof.
  intros Hfetch Hdata.
  unfold WorkerClient.getContext, try_catch, bind, fetch. rewrite Hfetch.
  destruct status; [|reflexivity].
  destruct Hdata; subst data; reflexivity.
Qed.

Lemma getContext_empty_payload_is_null_witness :
  fst (WorkerClient.getContext ctx_online "demo" init_world) = Ok None.
Proof.
  apply (getContext_empty_payload_is_null ctx_online "demo" init_world true (JObj []));
    [reflexivity | left; reflexivity].
Defined.

(** C9. [search] returns a string and never throws: [Search failed] for a
    status that is not OK, an error text when [fetch] rejects or the body does
    not parse, and the serialized payload otherwise. *)
Theorem search_returns_string (ctx : Ctx) (query project : string) (w : World) :
  (exists text, fst (WorkerClient.search ctx query project w) = Ok text)
  /\ (forall r, fetch_at ctx (length (trace w)) = FetchResponse r -> ok r = false ->
        fst (WorkerClient.search ctx query project w) = Ok "Search failed")
  /\ (forall err, fetch_at ctx (length (trace w)) = FetchThrew err ->
        fst (WorkerClient.search ctx query project w)
        = Ok ("Error performing search: " +:+ err))
  /\ (forall r err, fetch_at ctx (length (trace w)) = FetchResponse r -> ok r = true ->
        body r = BadBody err ->
        fst (WorkerClient.search ctx query project w)
        = Ok ("Error performing search: " +:+ err))
  /\ (forall r data, fetch_at ctx (length (trace w)) = FetchResponse r -> ok r = true ->
        body r = JsonBody data ->
        fst (WorkerClient.search ctx query project w) = Ok (Json.stringify data)).
Proof.
  split.
  { destruct (search_eq ctx query project w) as [text ->]. exists text. reflexivity. }
  unfold WorkerClient.search, try_catch, bind, fetch, response_json.
  repeat split.
  - intros r Hfetch Hok. rewrite Hfetch. cbn. rewrite Hok. reflexivity.
  - intros err Hfetch. rewrite Hfetch. reflexivity.
  - intros r err Hfetch Hok Hbody. rewrite Hfetch. cbn. rewrite Hok, Hbody. reflexivity.
  - intros r data Hfetch Hok Hbody. rewrite Hfetch. cbn. rewrite Hok, Hbody. reflexivity.
Qed.

Lemma search_returns_string_witness :
  fst (WorkerClient.search ctx_online "auth bug" "demo" init_world) = Ok "{}".
Proof.
  apply (proj2 (proj2 (proj2 (proj2
           (search_returns_string ctx_online "auth bug" "demo" init_world))))
           {| ok := true; body := JsonBody (JObj []) |} (JObj []));
    reflexivity.
Defined.

(** C1. The code at a failing remote initialization. The worker is healthy
    and answers the [sessionInit] request with status [500]:
    [WorkerClient.sessionInit] returns [null] instead of throwing, the
    [catch] of [ensureSessionInit] is never entered, the call returns [true]
    and the identifier is in [initializedSessions]; a second call returns at
    once, so the initialization is not tried again. *)
Theorem ensureSessionInit_marks_failed_init :
  trace (first_message ctx_init_fails)
  = [GetHealth; ShowToast "Memory active · demo" success 3000;
     PostSessionInit "s1" "demo" "fix the bug"]
  /\ fetch_at ctx_init_fails 2 = response_status_500
  /\ fst (WorkerClient.sessionInit ctx_init_fails "s1" "demo" "fix the bug"
            (first_check ctx_init_fails)) = Ok None
  /\ fst (ensureSessionInit ctx_init_fails "s1" (Some "fix the bug") init_world) = Ok true
  /\ bool_decide ("s1" ∈ initializedSessions (st (first_message ctx_init_fails))) = true
  /\ ensureSessionInit ctx_init_fails "s1" (Some "fix the bug")
       (first_message ctx_init_fails)
     = (Ok true, first_message ctx_init_fails).
Proof.
  repeat split; reflexivity.
Qed.

(** C2. The code with a worker that is down. After the host announced
    session [s1] the memoized flag is [false]. There [ensureSessionInit]
    returns [false] and the system-prompt transform returns the prompt as it
    got it, both without a request. [tool.execute.after] calls
    [ensureSessionInit] before sending, drops the [false] it returns, and
    posts the observation all the same; it does not throw. *)
Theorem tool_hook_posts_while_unhealthy :
  workerHealthy (st (session_announced ctx_offline)) = Some false
  /\ ensureSessionInit ctx_offline "s1" None (session_announced ctx_offline)
     = (Ok false, session_announced ctx_offline)
  /\ system_transform ctx_offline (Some "s1") ["You are helpful."]
       (session_announced ctx_offline)
     = (Ok ["You are helpful."], session_announced ctx_offline)
  /\ tool_execute_after ctx_offline (Some "s1") "bash" None "done"
       (session_announced ctx_offline)
     = (Ok tt, push (PostObservation "s1" "bash" (JObj []) "done" "/work/demo")
                    (session_announced ctx_offline))
  /\ count is_observation (trace (session_announced ctx_offline)) = 0
  /\ count is_observation
       (trace (after (tool_execute_after ctx_offline (Some "s1") "bash" None "done")
                 (session_announced ctx_offline)))
     = 1.
Proof.
  repeat split; vm_compute; reflexivity.
Qed.

(** ** Further lemmas *)

Lemma wp_fst {A} (m : M A) (P : Res A -> Prop) w :
  wp m (fun r _ => P r) w -> P (fst (m w)).
Proof. exact (fun H => H). Qed.

Lemma hook_returns ctx call w :
  is_memory_command call = false -> fst (dispatch ctx call w) = Ok tt.
Proof.
  intros Hcall.
  apply (wp_fst _ (fun r => r = Ok tt)).
  destruct w as [[cache flag shown current initialized] tr].
  destruct call; cbn [is_memory_command] in Hcall; wp_run; try reflexivity.
Qed.

(** *** Identifiers and addresses *)

Lemma prompt_or_default_truthy prompt : JsString.truthy (prompt_or_default prompt) = true.
Proof.
  unfold prompt_or_default. destruct prompt as [p|]; [|reflexivity].
  destruct (JsString.truthy p) eqn:Hp; [exact Hp | reflexivity].
Qed.

Lemma Forall_snoc_addressed (tr : list Effect) e :
  Forall (fun e => well_addressed e = true) tr -> well_addressed e = true ->
  Forall (fun e => well_addressed e = true) (tr ++ [e]).
Proof. intros Htr He. apply Forall_app. split; [exact Htr | repeat constructor; exact He]. Qed.

Lemma addressed_dispatch ctx call w :
  any_call call ->
  Forall (fun e => well_addressed e = true) (trace w) ->
  Forall (fun e => well_addressed e = true) (trace (after (dispatch ctx call) w)).
Proof.
  intros _.
  apply (wp_after _ (fun w' => Forall (fun e => well_addressed e = true) (trace w) ->
                               Forall (fun e => well_addressed e = true) (trace w'))).
  destruct w as [[cache flag shown current initialized] tr].
  destruct call; wp_run.
  all: wp_red; intros Htr;
    repeat (apply Forall_snoc_addressed;
            [|cbn [well_addressed]; rewrite ?prompt_or_default_truthy;
              repeat match goal with
                     | H : JsString.truthy _ = true |- _ => rewrite H
                     end; reflexivity]);
    exact Htr.
Qed.

Lemma ids_nonempty_dispatch ctx call w :
  any_call call -> ids_nonempty (st w) -> ids_nonempty (st (after (dispatch ctx call) w)).
Proof.
  intros _.
  apply (wp_after _ (fun w' => ids_nonempty (st w) -> ids_nonempty (st w'))).
  destruct w as [[cache flag shown current initialized] tr].
  destruct call; wp_run.
  all: unfold ids_nonempty; wp_red; intros [Hcur Hset]; split.
  all: intros x Hx;
    first [ exact (Hcur x Hx)
          | exact (Hset x Hx)
          | injection Hx as <-; assumption
          | match goal with
            | H : truthy_str _ = true |- _ => rewrite Hx in H; exact H
            end
          | apply elem_of_union in Hx as [Hx|Hx];
            [apply elem_of_singleton in Hx; subst x; assumption | exact (Hset x Hx)] ].
Qed.

Lemma sessions_grow_dispatch ctx call w :
  any_call call ->
  initializedSessions (st w) ⊆ initializedSessions (st (after (dispatch ctx call) w)).
Proof.
  intros _.
  apply (wp_after _ (fun w' => initializedSessions (st w) ⊆ initializedSessions (st w'))).
  destruct w as [[cache flag shown current initialized] tr].
  destruct call; wp_run.
  all: wp_red; set_solver.
Qed.

Lemma isHealthy_probe ctx w :
  WorkerClient.isHealthy ctx w
  = (Ok (probe_ok (fetch_at ctx (length (trace w)))), push GetHealth w).
Proof.
  unfold WorkerClient.isHealthy, try_catch, bind, fetch, ret.
  destruct (fetch_at ctx (length (trace w))); reflexivity.
Qed.

(** *** Paths *)

Lemma append_empty_r (s : string) : s +:+ EmptyString = s.
Proof.
  induction s as [|c s IH]; [reflexivity|].
  change (String c (s +:+ EmptyString) = String c s). rewrite IH. reflexivity.
Qed.

Lemma split_path_nonempty s : JsString.split_path s <> [].
Proof.
  destruct s as [|c rest]; cbn [JsString.split_path]; [discriminate|].
  destruct (JsString.is_separator c); [discriminate|].
  destruct (JsString.split_path rest); discriminate.
Qed.

Lemma split_path_app a c b :
  JsString.is_separator c = true ->
  JsString.split_path (a +:+ String c b) = JsString.split_path a ++ JsString.split_path b.
Proof.
  intros Hc. induction a as [|x a IH].
  - change (EmptyString +:+ String c b) with (String c b).
    cbn [JsString.split_path]. rewrite Hc. reflexivity.
  - change (String x a +:+ String c b) with (String x (a +:+ String c b)).
    cbn [JsString.split_path]. rewrite IH. destruct (JsString.is_separator x); [reflexivity|].
    pose proof (split_path_nonempty a) as Hne.
    destruct (JsString.split_path a) as [|seg segs]; [congruence | reflexivity].
Qed.

Lemma split_path_plain name :
  has_separator name = false -> JsString.split_path name = [name].
Proof.
  induction name as [|c name IH]; cbn [has_separator JsString.split_path]; [reflexivity|].
  intros H. apply orb_false_iff in H as [Hc Hn]. rewrite Hc, (IH Hn). reflexivity.
Qed.

Lemma split_path_separators trail :
  only_separators trail = true ->
  List.filter JsString.truthy (JsString.split_path trail) = [].
Proof.
  induction trail as [|c trail IH]; cbn [only_separators JsString.split_path];
    [reflexivity|].
  intros H. apply andb_true_iff in H as [Hc Ht]. rewrite Hc.
  cbn [List.filter]. change (JsString.truthy EmptyString) with false. apply IH, Ht.
Qed.

(** The components of a name followed by separators only. *)
Lemma split_path_name name trail :
  JsString.truthy name = true -> has_separator name = false ->
  only_separators trail = true ->
  List.filter JsString.truthy (JsString.split_path (name +:+ trail)) = [name].
Proof.
  intros Hname Hsep Htrail. destruct trail as [|c trail].
  - rewrite append_empty_r, split_path_plain by exact Hsep.
    cbn [List.filter]. rewrite Hname. reflexivity.
  - cbn [only_separators] in Htrail. apply andb_true_iff in Htrail as [Hc Htrail].
    rewrite split_path_app by exact Hc.
    rewrite List.filter_app, split_path_plain by exact Hsep.
    rewrite (split_path_separators trail Htrail).
    cbn [List.filter]. rewrite Hname. reflexivity.
Qed.

Lemma truthy_append name trail :
  JsString.truthy name = true -> JsString.truthy (name +:+ trail) = true.
Proof. destruct name; [discriminate | reflexivity]. Qed.

(** Every path is separators only, or has a last component: a name that
    starts the path or follows a separator, with separators only behind it. *)
Lemma path_shape path :
  only_separators path = true
  \/ (exists name trail,
        path = name +:+ trail
        /\ JsString.truthy name = true /\ has_separator name = false
        /\ only_separators trail = true)
  \/ (exists dir sep name trail,
        path = dir +:+ String sep (name +:+ trail)
        /\ JsString.is_separator sep = true
        /\ JsString.truthy name = true /\ has_separator name = false
        /\ only_separators trail = true).
Proof.
  induction path as [|c path IH]; [left; reflexivity|].
  destruct (JsString.is_separator c) eqn:Hc.
  - destruct IH as [Hall | [(name & trail & -> & Hn & Hs & Ht)
                           | (dir & sep & name & trail & -> & Hsep & Hn & Hs & Ht)]].
    + left. cbn [only_separators]. rewrite Hc, Hall. reflexivity.
    + right. right. exists EmptyString, c, name, trail. repeat split; assumption.
    + right. right. exists (String c dir), sep, name, trail. repeat split; assumption.
  - right.
    destruct IH as [Hall | [(name & trail & -> & Hn & Hs & Ht)
                           | (dir & sep & name & trail & -> & Hsep & Hn & Hs & Ht)]].
    + left. exists (String c EmptyString), path. repeat split; try assumption.
      cbn [has_separator]. rewrite Hc. reflexivity.
    + left. exists (String c name), trail. repeat split; try assumption.
      cbn [has_separator]. rewrite Hc, Hs. reflexivity.
    + right. exists (String c dir), sep, name, trail. repeat split; assumption.
Qed.

Lemma split_path_segments s :
  Forall (fun seg => has_separator seg = false) (JsString.split_path s).
Proof.
  induction s as [|c s IH]; cbn [JsString.split_path]; [repeat constructor|].
  destruct (JsString.is_separator c) eqn:Hc; [constructor; [reflexivity | exact IH]|].
  destruct (JsString.split_path s) as [|seg segs].
  - repeat constructor. cbn [has_separator]. rewrite Hc. reflexivity.
  - inversion IH as [|? ? Hseg Hsegs]; subst.
    constructor; [cbn [has_separator]; rewrite Hc; exact Hseg | exact Hsegs].
Qed.

Lemma findLast_truthy_spec segments x :
  JsString.findLast_truthy segments = Some x ->
  JsString.truthy x = true /\ In x segments.
Proof.
  unfold JsString.findLast_truthy. intros Hlast.
  assert (Hin : In x (List.filter JsString.truthy segments)).
  { apply last_Some in Hlast as [l' ->]. apply in_or_app. right. left. reflexivity. }
  apply List.filter_In in Hin as [Hin Ht]. split; assumption.
Qed.

(** *** Text parts *)

Lemma omap_text_filter (ps : list Part) :
  omap (fun p => if String.eqb (part_type p) "text" then part_text p else None)
       (List.filter is_text_part ps)
  = omap (fun p => if String.eqb (part_type p) "text" then part_text p else None) ps.
Proof.
  induction ps as [|p ps IH]; [reflexivity|].
  cbn [List.filter]. unfold is_text_part at 1.
  destruct (String.eqb (part_type p) "text") eqn:Hty; cbn [andb].
  - destruct (part_text p) as [t|] eqn:Ht.
    + cbn. rewrite Hty, Ht. cbn. rewrite IH. reflexivity.
    + cbn. rewrite Hty, Ht. exact IH.
  - cbn. rewrite Hty. exact IH.
Qed.

(** *** Status messages *)

Lemma slice_prefix_is_prefix n s :
  exists rest, s = JsString.slice_prefix n s +:+ rest.
Proof.
  revert n. induction s as [|c s IH]; intros n; cbn [JsString.slice_prefix];
    [exists EmptyString; reflexivity|].
  destruct ((128 <=? JsString.code c)%nat && (JsString.code c <? 192)%nat).
  - destruct (IH n) as [rest Hrest]. exists rest.
    change (String c s = String c (JsString.slice_prefix n s +:+ rest)).
    rewrite <- Hrest. reflexivity.
  - destruct (JsString.code c <? 240)%nat.
    + destruct n as [|n]; [exists (String c s); reflexivity|].
      destruct (IH n) as [rest Hrest]. exists rest.
      change (String c s = String c (JsString.slice_prefix n s +:+ rest)).
      rewrite <- Hrest. reflexivity.
    + destruct n as [|[|n]]; try (exists (String c s); reflexivity).
      destruct (IH n) as [rest Hrest]. exists rest.
      change (String c s = String c (JsString.slice_prefix n s +:+ rest)).
      rewrite <- Hrest. reflexivity.
Qed.

Lemma slice_prefix_short n s :
  2 * String.length s <= n -> JsString.slice_prefix n s = s.
Proof.
  revert n. induction s as [|c s IH]; intros n Hn;
    cbn [String.length JsString.slice_prefix] in *; [reflexivity|].
  destruct ((128 <=? JsString.code c)%nat && (JsString.code c <? 192)%nat).
  - rewrite IH by lia. reflexivity.
  - destruct (JsString.code c <? 240)%nat.
    + destruct n as [|n]; [lia|]. rewrite IH by lia. reflexivity.
    + destruct n as [|[|n]]; [lia | lia |]. rewrite IH by lia. reflexivity.
Qed.

Lemma sendStatusMessage_eq ctx sessionId text w :
  sendStatusMessage ctx sessionId text w
  = (Ok tt,
     {| st := st w;
        trace := trace w ++ status_calls ctx (length (trace w)) sessionId text |}).
Proof.
  unfold sendStatusMessage, try_catch, bind, host_call, ret, status_calls.
  destruct (host_at ctx (length (trace w))); [|reflexivity].
  rewrite toast_eq. unfold push. cbn [st trace]. rewrite <- app_assoc. reflexivity.
Qed.

(** *** Trimming *)

Lemma rev_app_swap s a b :
  String.rev_app (String.rev_app s a) b = String.rev_app a (s +:+ b).
Proof.
  revert a b. induction s as [|c s IH]; intros a b; [reflexivity|].
  cbn [String.rev_app]. rewrite IH. reflexivity.
Qed.

Lemma rev_involutive s : String.rev (String.rev s) = s.
Proof. unfold String.rev. rewrite rev_app_swap. cbn. apply append_empty_r. Qed.

Lemma rev_app_append s x y : String.rev_app s (x +:+ y) = String.rev_app s x +:+ y.
Proof.
  revert x. induction s as [|c s IH]; intros x; [reflexivity|].
  cbn [String.rev_app]. change (String c (x +:+ y)) with (String c x +:+ y). apply IH.
Qed.

Lemma rev_app_distr a b acc :
  String.rev_app (a +:+ b) acc = String.rev_app b (String.rev_app a acc).
Proof.
  revert acc. induction a as [|c a IH]; intros acc; [reflexivity|].
  change (String c a +:+ b) with (String c (a +:+ b)). cbn [String.rev_app]. apply IH.
Qed.

Lemma rev_append a b : String.rev (a +:+ b) = String.rev b +:+ String.rev a.
Proof.
  unfold String.rev. rewrite rev_app_distr.
  change (String.rev_app a EmptyString) with (EmptyString +:+ String.rev_app a EmptyString).
  apply rev_app_append.
Qed.

(** What [strip] returns is a suffix of its argument. *)
Lemma strip_suffix back s : exists p, s = p +:+ JsString.strip back s.
Proof.
  remember (String.length s) as n eqn:Hn.
  assert (Hle : String.length s <= n) by lia. clear Hn.
  revert s Hle. induction n as [|n IH]; intros s Hle.
  - destruct s; [exists EmptyString; reflexivity | cbn in Hle; lia].
  - destruct s as [|c1 r1]; [exists EmptyString; reflexivity|].
    cbn [String.length] in Hle. cbn [JsString.strip].
    destruct (JsString.ws1 c1).
    { destruct (IH r1) as [p Hp]; [lia|]. exists (String c1 p).
      change (String c1 r1 = String c1 (p +:+ JsString.strip back r1)).
      rewrite <- Hp. reflexivity. }
    destruct r1 as [|c2 r2]; [exists EmptyString; reflexivity|].
    cbn [String.length] in Hle.
    destruct (if back then JsString.ws2 c2 c1 else JsString.ws2 c1 c2).
    { destruct (IH r2) as [p Hp]; [lia|]. exists (String c1 (String c2 p)).
      change (String c1 (String c2 r2)
              = String c1 (String c2 (p +:+ JsString.strip back r2))).
      rewrite <- Hp. reflexivity. }
    destruct r2 as [|c3 r3]; [exists EmptyString; reflexivity|].
    cbn [String.length] in Hle.
    destruct (if back then JsString.ws3 c3 c2 c1 else JsString.ws3 c1 c2 c3).
    { destruct (IH r3) as [p Hp]; [lia|]. exists (String c1 (String c2 (String c3 p))).
      change (String c1 (String c2 (String c3 r3))
              = String c1 (String c2 (String c3 (p +:+ JsString.strip back r3)))).
      rewrite <- Hp. reflexivity. }
    exists EmptyString. reflexivity.
Qed.

(** What [strip] returns has nothing left to strip. *)
Lemma strip_fixed back s : JsString.strip back (JsString.strip back s) = JsString.strip back s.
Proof.
  remember (String.length s) as n eqn:Hn.
  assert (Hle : String.length s <= n) by lia. clear Hn.
  revert s Hle. induction n as [|n IH]; intros s Hle.
  - destruct s; [reflexivity | cbn in Hle; lia].
  - destruct s as [|c1 r1]; [reflexivity|].
    cbn [String.length] in Hle. cbn [JsString.strip].
    destruct (JsString.ws1 c1) eqn:H1; [apply IH; lia|].
    destruct r1 as [|c2 r2]; [cbn [JsString.strip]; rewrite H1; reflexivity|].
    cbn [String.length] in Hle.
    destruct (if back then JsString.ws2 c2 c1 else JsString.ws2 c1 c2) eqn:H2;
      [apply IH; lia|].
    destruct r2 as [|c3 r3]; [cbn [JsString.strip]; rewrite H1, H2; reflexivity|].
    cbn [String.length] in Hle.
    destruct (if back then JsString.ws3 c3 c2 c1 else JsString.ws3 c1 c2 c3) eqn:H3;
      [apply IH; lia|].
    cbn [JsString.strip]. rewrite H1, H2, H3. reflexivity.
Qed.

Lemma strip_length back s : String.length (JsString.strip back s) <= String.length s.
Proof.
  remember (String.length s) as n eqn:Hn.
  assert (Hle : String.length s <= n) by lia.
  rewrite Hn. clear Hn.
  revert s Hle. induction n as [|n IH]; intros s Hle.
  - destruct s; [cbn; lia | cbn in Hle; lia].
  - destruct s as [|c1 r1]; [cbn; lia|].
    cbn [String.length] in Hle. cbn [JsString.strip].
    destruct (JsString.ws1 c1).
    { specialize (IH r1). cbn [String.length]. lia. }
    destruct r1 as [|c2 r2]; [lia|].
    cbn [String.length] in Hle.
    destruct (if back then JsString.ws2 c2 c1 else JsString.ws2 c1 c2).
    { specialize (IH r2). cbn [String.length]. lia. }
    destruct r2 as [|c3 r3]; [lia|].
    cbn [String.length] in Hle.
    destruct (if back then JsString.ws3 c3 c2 c1 else JsString.ws3 c1 c2 c3).
    { specialize (IH r3). cbn [String.length]. lia. }
    lia.
Qed.

(** A prefix of a string with no leading white space has none either. *)
Lemma strip_fixed_prefix p q :
  JsString.strip false (p +:+ q) = p +:+ q -> JsString.strip false p = p.
Proof.
  assert (Hshort : forall s c, JsString.strip false s <> String c s).
  { intros s c H. pose proof (strip_length false s) as Hl. rewrite H in Hl.
    cbn [String.length] in Hl. lia. }
  assert (Hshort2 : forall s c d, JsString.strip false s <> String c (String d s)).
  { intros s c d H. pose proof (strip_length false s) as Hl. rewrite H in Hl.
    cbn [String.length] in Hl. lia. }
  assert (Hshort3 : forall s c d e,
            JsString.strip false s <> String c (String d (String e s))).
  { intros s c d e H. pose proof (strip_length false s) as Hl. rewrite H in Hl.
    cbn [String.length] in Hl. lia. }
  destruct p as [|c1 p1]; [reflexivity|].
  change (String c1 p1 +:+ q) with (String c1 (p1 +:+ q)).
  cbn [JsString.strip].
  destruct (JsString.ws1 c1); [intros H; exfalso; exact (Hshort _ _ H)|].
  destruct p1 as [|c2 p2]; [reflexivity|].
  change (String c2 p2 +:+ q) with (String c2 (p2 +:+ q)). cbv iota.
  destruct (JsString.ws2 c1 c2); [intros H; exfalso; exact (Hshort2 _ _ _ H)|].
  destruct p2 as [|c3 p3]; [reflexivity|].
  change (String c3 p3 +:+ q) with (String c3 (p3 +:+ q)). cbv iota.
  destruct (JsString.ws3 c1 c2 c3); [intros H; exfalso; exact (Hshort3 _ _ _ _ H)|].
  reflexivity.
Qed.

Lemma trim_fixed s : JsString.trim (JsString.trim s) = JsString.trim s.
Proof.
  unfold JsString.trim, JsString.trimEnd, JsString.trimStart.
  set (t := JsString.strip false s).
  set (u := JsString.strip true (String.rev t)).
  destruct (strip_suffix true (String.rev t)) as [p Hp]. fold u in Hp.
  assert (Ht : t = String.rev u +:+ String.rev p).
  { rewrite <- (rev_involutive t), Hp, rev_append. reflexivity. }
  assert (Hfix : JsString.strip false t = t) by apply strip_fixed.
  rewrite Ht in Hfix. apply strip_fixed_prefix in Hfix.
  rewrite Hfix, rev_involutive. unfold u. rewrite strip_fixed. reflexivity.
Qed.

Lemma trim_empty : JsString.trim EmptyString = EmptyString.
Proof. reflexivity. Qed.

(** *** Sessions and observations *)

Lemma tool_after_sends ctx sessionID tool args output w sessionId :
  or_str sessionID (currentSessionId (st w)) = Some sessionId ->
  JsString.truthy sessionId = true ->
  fst (tool_execute_after ctx sessionID tool args output w) = Ok tt
  /\ last (trace (after (tool_execute_after ctx sessionID tool args output) w))
     = Some (PostObservation sessionId tool (args_or_empty args) output (projectRoot ctx))
  /\ count is_observation (trace (after (tool_execute_after ctx sessionID tool args output) w))
     = count is_observation (trace w) + 1.
Proof.
  intros Hor Htruthy.
  change (wp (tool_execute_after ctx sessionID tool args output)
            (fun r w' => r = Ok tt
               /\ last (trace w')
                  = Some (PostObservation sessionId tool (args_or_empty args) output
                            (projectRoot ctx))
               /\ count is_observation (trace w') = count is_observation (trace w) + 1) w).
  destruct w as [[cache flag shown current initialized] tr].
  cbn [st currentSessionId trace] in *.
  wp_run; wp_red; rewrite last_snoc, ?count_snoc; cbn [is_observation];
    (split; [reflexivity|]; split; [reflexivity | lia]).
Qed.

Lemma created_tracks ctx ev w sessionId :
  event_type ev = "session.created" ->
  info_id ev = Some sessionId ->
  JsString.truthy sessionId = true ->
  currentSessionId (st (after (event ctx ev) w)) = Some sessionId
  /\ workerHealthy (st (after (event ctx ev) w)) <> None
  /\ initToastShown (st (after (event ctx ev) w)) = true
  /\ count is_any_session_init (trace (after (event ctx ev) w))
     = count is_any_session_init (trace w).
Proof.
  intros Hty Hid Htruthy.
  apply (wp_after _ (fun w' =>
           currentSessionId (st w') = Some sessionId
           /\ workerHealthy (st w') <> None
           /\ initToastShown (st w') = true
           /\ count is_any_session_init (trace w') = count is_any_session_init (trace w))).
  destruct w as [[cache flag shown current initialized] tr].
  destruct ev as [ty iid esid]. cbn [event_type info_id] in Hty, Hid. subst ty iid.
  assert (Hts : truthy_str (Some sessionId) = true) by exact Htruthy.
  wp_run; wp_red; rewrite ?count_snoc; cbn [is_any_session_init];
    (split; [reflexivity|]; split; [discriminate|]; split; [reflexivity | lia]).
Qed.

Lemma check_again ctx w b :
  workerHealthy (st w) = Some b -> initToastShown (st w) = true ->
  checkWorkerAndToast ctx w = (Ok (Some b), w).
Proof.
  intros Hflag Hshown.
  destruct w as [[cache flag shown current initialized] tr].
  cbn [st workerHealthy initToastShown] in *. subst flag shown. reflexivity.
Qed.

(** ** Further properties of the code *)

(** X1. Every hook call other than the [/memory] command returns normally,
    whatever the worker and the host answer and whatever the state of the
    tracker. *)
Theorem hooks_never_throw (ctx : Ctx) (call : HookCall) (w : World) :
  is_memory_command call = false -> fst (dispatch ctx call w) = Ok tt.
Proof. apply hook_returns. Qed.

Lemma hooks_never_throw_witness :
  fst (dispatch ctx_host_down (CallEvent (session_idle "s1")) init_world) = Ok tt.
Proof.
  apply (hooks_never_throw ctx_host_down (CallEvent (session_idle "s1")) init_world).
  reflexivity.
Defined.

(** X2. The [command.execute.before] hook leaves every command but [memory]
    alone (it returns, and the world is as it was); for [memory] it always
    throws: [__MEMORY_NO_SESSION__], with the world as it was, when neither
    the input nor the tracker gives a session identifier, and
    [__MEMORY_HANDLED__] when one of them does. *)
Theorem memory_command_outcomes (ctx : Ctx) (sessionID : option string) (w : World) :
  (forall command, String.eqb command "memory" = false ->
     command_execute_before ctx command sessionID w = (Ok tt, w))
  /\ (truthy_str (or_str sessionID (currentSessionId (st w))) = false ->
        command_execute_before ctx "memory" sessionID w
        = (Throw "__MEMORY_NO_SESSION__", w))
  /\ (truthy_str (or_str sessionID (currentSessionId (st w))) = true ->
        fst (command_execute_before ctx "memory" sessionID w)
        = Throw "__MEMORY_HANDLED__").
Proof.
  destruct w as [[cache flag shown current initialized] tr].
  cbn [st currentSessionId].
  split; [|split].
  - intros command Hcommand. apply wp_eq. wp_run. split; reflexivity.
  - intros Hsid. apply wp_eq.
    destruct (or_str sessionID current) as [s|] eqn:Hor; cbn [truthy_str] in Hsid;
      wp_run; split; reflexivity.
  - intros Hsid.
    apply (wp_fst _ (fun r => r = Throw "__MEMORY_HANDLED__")).
    destruct (or_str sessionID current) as [s|] eqn:Hor; cbn [truthy_str] in Hsid;
      [|discriminate Hsid].
    wp_run; reflexivity.
Qed.

Lemma memory_command_outcomes_witness :
  command_execute_before ctx_online "memory" None init_world
  = (Throw "__MEMORY_NO_SESSION__", init_world).
Proof.
  apply (proj1 (proj2 (memory_command_outcomes ctx_online None init_world))).
  reflexivity.
Defined.

(** X3. The three fire-and-forget operations of the client
    ([sendObservation], [summarize], [completeSession]) make exactly one
    request each, return normally whatever the answer (a refused connection
    included), and leave the tracker state alone. *)
Theorem fire_and_forget_calls (ctx : Ctx) (w : World) :
  (forall sid tool input output cwd,
     WorkerClient.sendObservation ctx sid tool input output cwd w
     = (Ok tt, push (PostObservation sid tool input output cwd) w))
  /\ (forall sid user assistant,
        WorkerClient.summarize ctx sid user assistant w
        = (Ok tt, push (PostSummarize sid user assistant) w))
  /\ (forall sid,
        WorkerClient.completeSession ctx sid w = (Ok tt, push (PostComplete sid) w)).
Proof.
  split; [|split]; intros.
  - apply sendObservation_eq.
  - apply summarize_eq.
  - apply completeSession_eq.
Qed.

(** X4. [isHealthy] makes one request and never throws; it answers [true]
    exactly when the request resolved with an OK status: a rejection (the
    one-second abort included) and a non-OK status both give [false]. *)
Theorem isHealthy_iff_ok (ctx : Ctx) (w : World) :
  WorkerClient.isHealthy ctx w
  = (Ok (probe_ok (fetch_at ctx (length (trace w)))), push GetHealth w)
  /\ (probe_ok (fetch_at ctx (length (trace w))) = true
      <-> exists r, fetch_at ctx (length (trace w)) = FetchResponse r /\ ok r = true).
Proof.
  split; [apply isHealthy_probe|].
  destruct (fetch_at ctx (length (trace w))) as [err|r]; cbn; split.
  - discriminate.
  - intros (r & Hr & _). discriminate Hr.
  - intros Hok. exists r. split; [reflexivity | exact Hok].
  - intros (r' & Hr & Hok). injection Hr as ->. exact Hok.
Qed.

(** X5. [sessionInit] makes one request and never throws; it returns the
    parsed body when the status is OK and the body parses, and [null] in
    every other case (rejection, non-OK status, body that does not parse). *)
Theorem sessionInit_result (ctx : Ctx) (sid project prompt : string) (w : World) :
  WorkerClient.sessionInit ctx sid project prompt w
  = (Ok match fetch_at ctx (length (trace w)) with
        | FetchResponse {| ok := true; body := JsonBody data |} => Some data
        | _ => None
        end,
     push (PostSessionInit sid project prompt) w).
Proof.
  unfold WorkerClient.sessionInit, try_catch, bind, fetch, response_json, ret, throw.
  destruct (fetch_at ctx (length (trace w))) as [err|[[] [data|err]]]; reflexivity.
Qed.

(** X6. [getContext] makes one request and never throws. A rejection, a
    non-OK status and a body that does not parse give [null]; with an OK
    status, a body that is a JSON string is returned as it is (the empty
    string included), and a body that is an object with a string [content]
    is replaced by that string. *)
Theorem getContext_shapes (ctx : Ctx) (project : string) (w : World) :
  (exists context,
     WorkerClient.getContext ctx project w
     = (Ok context, push (GetContextInject project) w))
  /\ (forall err, fetch_at ctx (length (trace w)) = FetchThrew err ->
        fst (WorkerClient.getContext ctx project w) = Ok None)
  /\ (forall b, fetch_at ctx (length (trace w)) = FetchResponse {| ok := false; body := b |} ->
        fst (WorkerClient.getContext ctx project w) = Ok None)
  /\ (forall err,
        fetch_at ctx (length (trace w)) = FetchResponse {| ok := true; body := BadBody err |} ->
        fst (WorkerClient.getContext ctx project w) = Ok None)
  /\ (forall s, fetch_at ctx (length (trace w)) = response_ok (JStr s) ->
        fst (WorkerClient.getContext ctx project w) = Ok (Some s))
  /\ (forall members s,
        fetch_at ctx (length (trace w)) = response_ok (JObj members) ->
        Json.assoc "content" members = Some (JStr s) ->
        fst (WorkerClient.getContext ctx project w) = Ok (Some s)).
Proof.
  split; [apply getContext_eq|].
  unfold WorkerClient.getContext, try_catch, bind, fetch, response_json, ret, throw,
    response_ok.
  repeat split.
  - intros err ->. reflexivity.
  - intros b ->. reflexivity.
  - intros err ->. reflexivity.
  - intros s ->. reflexivity.
  - intros members s -> Hcontent. cbn.
    unfold WorkerClient.content_string. cbn [Json.get]. rewrite Hcontent. reflexivity.
Qed.

Lemma getContext_shapes_witness :
  fst (WorkerClient.getContext (ctx_answering (JObj [("content", JStr "notes")]))
         "demo" init_world)
  = Ok (Some "notes").
Proof.
  apply (proj2 (proj2 (proj2 (proj2 (proj2
           (getContext_shapes (ctx_answering (JObj [("content", JStr "notes")]))
              "demo" init_world)))))
           [("content", JStr "notes")] "notes");
    reflexivity.
Defined.

(** X7. Every call that names a session names it by a non-empty identifier,
    and every remote initialization carries a non-empty prompt: no sequence
    of hook calls adds to the trace a request to the worker or a call into
    the host with an empty session identifier, or a [sessionInit] with an
    empty prompt. *)
Theorem calls_are_well_addressed (ctx : Ctx) (calls : list HookCall) (w : World) :
  Forall (fun e => well_addressed e = true) (trace w) ->
  Forall (fun e => well_addressed e = true) (trace (run_hooks ctx calls w)).
Proof.
  apply (run_hooks_rel ctx any_call
           (fun w w' => Forall (fun e => well_addressed e = true) (trace w) ->
                        Forall (fun e => well_addressed e = true) (trace w')));
    auto using addressed_dispatch, Forall_any_call.
Qed.

Lemma calls_are_well_addressed_witness :
  Forall (fun e => well_addressed e = true)
    (trace (run_hooks ctx_online
              [CallChatMessage (Some "s1") None; CallToolAfter (Some "") "bash" None "ok"]
              init_world)).
Proof.
  apply (calls_are_well_addressed ctx_online
           [CallChatMessage (Some "s1") None; CallToolAfter (Some "") "bash" None "ok"]
           init_world).
  constructor.
Defined.

(** X8. The identifiers that the tracker holds are never empty: in every
    world that a run of hooks reaches from the initial state,
    [currentSessionId] is unset or a non-empty string and every member of
    [initializedSessions] is a non-empty string. *)
Theorem tracked_ids_are_nonempty (ctx : Ctx) (calls : list HookCall) :
  ids_nonempty (st (run_hooks ctx calls init_world)).
Proof.
  apply (run_hooks_rel ctx any_call (fun w w' => ids_nonempty (st w) -> ids_nonempty (st w')));
    auto using ids_nonempty_dispatch, Forall_any_call.
  split; intros x Hx; [discriminate Hx | set_solver].
Qed.

(** X9. [initializedSessions] only grows: no hook call removes an identifier
    from it. *)
Theorem initializedSessions_only_grows (ctx : Ctx) (calls : list HookCall) (w : World) :
  initializedSessions (st w) ⊆ initializedSessions (st (run_hooks ctx calls w)).
Proof.
  apply (run_hooks_rel ctx any_call
           (fun w w' => initializedSessions (st w) ⊆ initializedSessions (st w')));
    auto using sessions_grow_dispatch, Forall_any_call.
  intros w1 w2 w3 H12 H23. set_solver.
Qed.

(** X10. The first [checkWorkerAndToast] of a process (flag unknown, toast
    not yet shown) makes the probe and then shows the toast that matches its
    answer: [Memory active] when the probe found the worker healthy,
    [Worker offline] otherwise; it returns the flag it stored. *)
Theorem first_check_probes_then_toasts (ctx : Ctx) (w : World) :
  workerHealthy (st w) = None ->
  initToastShown (st w) = false ->
  let healthy := probe_ok (fetch_at ctx (length (trace w))) in
  checkWorkerAndToast ctx w
  = (Ok (Some healthy),
     {| st := set_initToastShown true (set_workerHealthy (Some healthy) (st w));
        trace := trace w ++ [GetHealth; startup_toast ctx healthy] |}).
Proof.
  intros Hflag Hshown healthy. subst healthy.
  destruct w as [[cache flag shown current initialized] tr].
  cbn [st workerHealthy initToastShown trace] in *. subst flag shown.
  unfold checkWorkerAndToast, bind, gets, modify, ret.
  cbn [st workerHealthy].
  rewrite isHealthy_probe.
  cbn [trace]. unfold upd, push. cbn [st trace initToastShown negb workerHealthy
    set_workerHealthy set_initToastShown].
  destruct (probe_ok (fetch_at ctx (length tr))); cbn [truthy_flag startup_toast];
    rewrite toast_eq; unfold push; cbn [st trace]; rewrite <- app_assoc; reflexivity.
Qed.

Lemma first_check_probes_then_toasts_witness :
  checkWorkerAndToast ctx_offline init_world
  = (Ok (Some false),
     {| st := set_initToastShown true (set_workerHealthy (Some false) (st init_world));
        trace := trace init_world ++ [GetHealth; startup_toast ctx_offline false] |}).
Proof.
  apply (first_check_probes_then_toasts ctx_offline init_world); reflexivity.
Defined.

(** X11. [ensureSessionInit] never throws, and what it returns says whether
    the identifier is in [initializedSessions] afterwards: [true] exactly
    when it is. When it returns [false], the set is as it was and no remote
    initialization was requested. *)
Theorem ensureSessionInit_reports_membership (ctx : Ctx) (sessionId : string)
    (prompt : option string) (w : World) :
  exists b,
    fst (ensureSessionInit ctx sessionId prompt w) = Ok b
    /\ (b = true <->
        sessionId ∈ initializedSessions (st (after (ensureSessionInit ctx sessionId prompt) w)))
    /\ (b = false ->
        initializedSessions (st (after (ensureSessionInit ctx sessionId prompt) w))
        = initializedSessions (st w)
        /\ count is_any_session_init (trace (after (ensureSessionInit ctx sessionId prompt) w))
           = count is_any_session_init (trace w)).
Proof.
  change (wp (ensureSessionInit ctx sessionId prompt)
            (fun r w' => exists b, r = Ok b
               /\ (b = true <-> sessionId ∈ initializedSessions (st w'))
               /\ (b = false ->
                   initializedSessions (st w') = initializedSessions (st w)
                   /\ count is_any_session_init (trace w')
                      = count is_any_session_init (trace w))) w).
  destruct w as [[cache flag shown current initialized] tr].
  wp_run; wp_red.
  all: try (exists true; split; [reflexivity|]; split; [|discriminate];
            split; [intros _|reflexivity];
            first [ eapply bool_decide_eq_true_1; eassumption | set_solver ]).
  all: exists false; split; [reflexivity|]; split;
    [ split; [discriminate|];
      intros Hin; exfalso;
      match goal with
      | H : bool_decide _ = false |- _ => apply bool_decide_eq_false_1 in H; exact (H Hin)
      end
    | intros _; split; [reflexivity|];
      rewrite ?count_snoc; cbn [is_any_session_init]; lia ].
Qed.

(** X12. [tool.execute.after] records every tool execution for which a
    session is known: with an identifier from the input, or else from the
    tracker, the call returns and the last thing it sends is the observation
    for that session, with the tool name, the arguments ([{}] when they are
    missing or falsy), the output and the project root; it sends one
    observation and no more. Without an identifier it returns with the world
    as it was. *)
Theorem tool_hook_records_observation (ctx : Ctx) (sessionID : option string)
    (tool : string) (args : option JSON) (output : string) (w : World) :
  (truthy_str (or_str sessionID (currentSessionId (st w))) = false ->
     tool_execute_after ctx sessionID tool args output w = (Ok tt, w))
  /\ (forall sessionId,
        or_str sessionID (currentSessionId (st w)) = Some sessionId ->
        JsString.truthy sessionId = true ->
        let w' := after (tool_execute_after ctx sessionID tool args output) w in
        fst (tool_execute_after ctx sessionID tool args output w) = Ok tt
        /\ last (trace w')
           = Some (PostObservation sessionId tool (args_or_empty args) output
                     (projectRoot ctx))
        /\ count is_observation (trace w') = count is_observation (trace w) + 1).
Proof.
  split.
  - destruct w as [[cache flag shown current initialized] tr].
    cbn [st currentSessionId].
    intros Hsid. apply wp_eq.
    destruct (or_str sessionID current) as [s|] eqn:Hor; cbn [truthy_str] in Hsid;
      wp_run; split; reflexivity.
  - intros sessionId Hor Htruthy. cbn zeta. apply tool_after_sends; assumption.
Qed.

Lemma tool_hook_records_observation_witness :
  fst (tool_execute_after ctx_offline None "bash" None "done"
         (session_announced ctx_offline)) = Ok tt
  /\ last (trace (after (tool_execute_after ctx_offline None "bash" None "done")
                    (session_announced ctx_offline)))
     = Some (PostObservation "s1" "bash" (args_or_empty None) "done"
               (projectRoot ctx_offline))
  /\ count is_observation
       (trace (after (tool_execute_after ctx_offline None "bash" None "done")
                 (session_announced ctx_offline)))
     = count is_observation (trace (session_announced ctx_offline)) + 1.
Proof.
  apply (proj2 (tool_hook_records_observation ctx_offline None "bash" None "done"
                  (session_announced ctx_offline)) "s1");
    reflexivity.
Defined.

(** X13. A [session.idle] event for a known session, when the host returns
    the message history: the hook returns, leaves the tracker state alone,
    and adds to the trace the request for the history, one summarize request
    whose texts are those of the last user message and of the last assistant
    message (the empty string when the history has no message of the role),
    one complete-session request and the toast, in this order. *)
Theorem idle_summarizes_history (ctx : Ctx) (ev : Event) (w : World)
    (sessionId : string) (messages : list Message) :
  event_type ev = "session.idle" ->
  or_str (event_sessionID ev) (currentSessionId (st w)) = Some sessionId ->
  JsString.truthy sessionId = true ->
  host_at ctx (length (trace w)) = HostResult (Some messages) ->
  event ctx ev w
  = (Ok tt,
     {| st := st w;
        trace := trace w ++ idle_calls sessionId (last_text "user" messages)
                              (last_text "assistant" messages) |}).
Proof.
  intros Hty Hsid Htruthy Hhost.
  apply wp_eq.
  destruct w as [s tr]. destruct ev as [ty iid esid].
  cbn [event_type event_sessionID st trace] in *. subst ty.
  wp_run. unfold push, idle_calls, last_text. cbn [st trace].
  rewrite !scan_back_last, <- !app_assoc. split; reflexivity.
Qed.

Lemma idle_summarizes_history_witness :
  event ctx_history (session_idle "s1") init_world
  = (Ok tt,
     {| st := st init_world;
        trace := trace init_world ++ idle_calls "s1" (last_text "user" history_abxy)
                                       (last_text "assistant" history_abxy) |}).
Proof.
  apply (idle_summarizes_history ctx_history (session_idle "s1") init_world "s1"
           history_abxy); reflexivity.
Defined.

(** X14. When the history cannot be had (the host call throws, or its result
    holds no array), the idle handler goes on with empty texts: it still
    sends one summarize request, with two empty strings, then one
    complete-session request and the toast, and returns. *)
Theorem idle_without_history (ctx : Ctx) (ev : Event) (w : World) (sessionId : string) :
  event_type ev = "session.idle" ->
  or_str (event_sessionID ev) (currentSessionId (st w)) = Some sessionId ->
  JsString.truthy sessionId = true ->
  (exists err, host_at ctx (length (trace w)) = HostThrew err)
  \/ host_at ctx (length (trace w)) = HostResult None ->
  event ctx ev w
  = (Ok tt,
     {| st := st w;
        trace := trace w ++ idle_calls sessionId EmptyString EmptyString |}).
Proof.
  intros Hty Hsid Htruthy Hhost.
  apply wp_eq.
  destruct w as [s tr]. destruct ev as [ty iid esid].
  cbn [event_type event_sessionID st trace] in *. subst ty.
  destruct Hhost as [[err Hhost]|Hhost];
    wp_run; unfold push, idle_calls; cbn [st trace];
    rewrite <- !app_assoc; split; reflexivity.
Qed.

Lemma idle_without_history_witness :
  event ctx_host_down (session_idle "s1") init_world
  = (Ok tt,
     {| st := st init_world;
        trace := trace init_world ++ idle_calls "s1" EmptyString EmptyString |}).
Proof.
  apply (idle_without_history ctx_host_down (session_idle "s1") init_world "s1");
    [reflexivity | reflexivity | reflexivity |].
  left. exists "TUI not available". reflexivity.
Defined.

(** X15. An event without a session identifier does nothing: a
    [session.created] event whose [info.id] is missing or empty, and a
    [session.idle] event with no [sessionID] while the tracker has no current
    session, return with the world as it was; so does an event of any other
    type. *)
Theorem events_without_session_do_nothing (ctx : Ctx) (ev : Event) (w : World) :
  (event_type ev = "session.created" -> truthy_str (info_id ev) = false ->
     event ctx ev w = (Ok tt, w))
  /\ (event_type ev = "session.idle" ->
        truthy_str (or_str (event_sessionID ev) (currentSessionId (st w))) = false ->
        event ctx ev w = (Ok tt, w))
  /\ (String.eqb (event_type ev) "session.created" = false ->
        String.eqb (event_type ev) "session.idle" = false ->
        event ctx ev w = (Ok tt, w)).
Proof.
  destruct w as [[cache flag shown current initialized] tr].
  destruct ev as [ty iid esid]. cbn [event_type info_id event_sessionID st currentSessionId].
  split; [|split].
  - intros -> Hid. apply wp_eq. wp_run. split; reflexivity.
  - intros -> Hsid. apply wp_eq.
    destruct (or_str esid current) as [s|] eqn:Hor; cbn [truthy_str] in Hsid;
      wp_run; split; reflexivity.
  - intros H1 H2. apply wp_eq. wp_run. split; reflexivity.
Qed.

Lemma events_without_session_do_nothing_witness :
  event ctx_online {| event_type := "session.idle"; info_id := None;
                      event_sessionID := None |} init_world
  = (Ok tt, init_world).
Proof.
  apply (proj1 (proj2 (events_without_session_do_nothing ctx_online
           {| event_type := "session.idle"; info_id := None; event_sessionID := None |}
           init_world))); reflexivity.
Defined.

(** X16. A [session.created] event with an identifier makes that identifier
    the current session, leaves the health flag determined and the startup
    toast shown, and requests no remote initialization (that is left to the
    first user message). *)
Theorem session_created_tracks_without_init (ctx : Ctx) (ev : Event) (w : World)
    (sessionId : string) :
  event_type ev = "session.created" ->
  info_id ev = Some sessionId ->
  JsString.truthy sessionId = true ->
  let w' := after (event ctx ev) w in
  currentSessionId (st w') = Some sessionId
  /\ workerHealthy (st w') <> None
  /\ initToastShown (st w') = true
  /\ count is_any_session_init (trace w') = count is_any_session_init (trace w).
Proof. intros Hty Hid Htruthy. cbn zeta. apply created_tracks; assumption. Qed.

Lemma session_created_tracks_without_init_witness :
  currentSessionId (st (after (event ctx_online (session_created "s2"))
                          (first_message ctx_online))) = Some "s2"
  /\ workerHealthy (st (after (event ctx_online (session_created "s2"))
                          (first_message ctx_online))) <> None
  /\ initToastShown (st (after (event ctx_online (session_created "s2"))
                           (first_message ctx_online))) = true
  /\ count is_any_session_init
       (trace (after (event ctx_online (session_created "s2")) (first_message ctx_online)))
     = count is_any_session_init (trace (first_message ctx_online)).
Proof.
  apply (session_created_tracks_without_init ctx_online (session_created "s2")
           (first_message ctx_online) "s2"); reflexivity.
Defined.

(** X17. The system-prompt transform returns normally and only ever appends:
    its result is the prompt it got, or that prompt followed by one element,
    the banner with a non-empty context; in the second case the worker was
    found healthy and the context is the one the cache holds. *)
Theorem system_transform_appends_context (ctx : Ctx) (sessionID : option string)
    (system : list string) (w : World) :
  exists system',
    fst (system_transform ctx sessionID system w) = Ok system'
    /\ (system' = system
        \/ exists text,
             JsString.truthy text = true
             /\ system' = system ++ [banner text]
             /\ contextCache (st (after (system_transform ctx sessionID system) w))
                = Some (Some text)
             /\ workerHealthy (st (after (system_transform ctx sessionID system) w))
                = Some true).
Proof.
  change (wp (system_transform ctx sessionID system)
            (fun r w' => exists system', r = Ok system'
               /\ (system' = system
                   \/ exists text,
                        JsString.truthy text = true
                        /\ system' = system ++ [banner text]
                        /\ contextCache (st w') = Some (Some text)
                        /\ workerHealthy (st w') = Some true)) w).
  destruct w as [[cache flag shown current initialized] tr].
  wp_run; wp_red.
  all: first
    [ exists system; split; [reflexivity | left; reflexivity]
    | match goal with
      | H : JsString.truthy ?t = true |- _ =>
          exists (system ++ [banner t]); split; [reflexivity|]; right;
          exists t; repeat split; first [ exact H | reflexivity | congruence ]
      end ].
Qed.

(** X18. With the worker known to be healthy, a user message for a session
    that is not yet initialized requests its remote initialization, with the
    project name and with the text of the message as the prompt
    ([SESSION_START] when the message has no text); whatever the worker
    answers, the session is then in [initializedSessions] and current. *)
Theorem chat_message_initializes (ctx : Ctx) (sessionId : string)
    (output_parts : option (list Part)) (calls : list HookCall) (w : World) :
  w = run_hooks ctx calls init_world ->
  workerHealthy (st w) = Some true ->
  JsString.truthy sessionId = true ->
  sessionId ∉ initializedSessions (st w) ->
  chat_message ctx (Some sessionId) output_parts w
  = (Ok tt,
     {| st := set_currentSessionId (Some sessionId)
                (add_initializedSession sessionId (st w));
        trace := trace w ++ [PostSessionInit sessionId (projectName ctx)
                               (chat_prompt output_parts)] |}).
Proof.
  intros Hw Hflag Htruthy Hnew.
  pose proof (tracker_inv_run ctx calls) as [_ Hshown]. rewrite <- Hw in Hshown.
  clear Hw calls.
  destruct w as [[cache flag shown current initialized] tr].
  cbn [st workerHealthy initializedSessions initToastShown trace] in *. subst flag.
  destruct Hshown as [Hshown|Hshown]; [discriminate Hshown|]. subst shown.
  assert (Hmem : bool_decide (sessionId ∈ initialized) = false)
    by (apply bool_decide_eq_false_2; exact Hnew).
  apply wp_eq. unfold chat_prompt. wp_run; split; reflexivity.
Qed.

Lemma chat_message_initializes_witness :
  chat_message ctx_online (Some "s2") None (first_message ctx_online)
  = (Ok tt,
     {| st := set_currentSessionId (Some "s2")
                (add_initializedSession "s2" (st (first_message ctx_online)));
        trace := trace (first_message ctx_online)
                 ++ [PostSessionInit "s2" (projectName ctx_online) (chat_prompt None)] |}).
Proof.
  apply (chat_message_initializes ctx_online "s2" None
           [CallChatMessage (Some "s1")
              (Some [{| part_type := "text"; part_text := Some "fix the bug" |}])]
           (first_message ctx_online)).
  - reflexivity.
  - reflexivity.
  - reflexivity.
  - intros Hin. pose proof (bool_decide_pack _ Hin) as H. vm_compute in H. exact H.
Defined.

(** X19. The [config] hook registers the [memory] command and keeps every
    other command of the input; running it again changes nothing. It makes
    no call and leaves the tracker alone. *)
Theorem config_registers_memory (command : option (gmap string CommandDef)) (w : World) :
  exists commands,
    config command w = (Ok commands, w)
    /\ commands !! "memory" = Some memory_command
    /\ (forall name, name <> "memory" -> commands !! name = default ∅ command !! name)
    /\ config (Some commands) w = (Ok commands, w).
Proof.
  eexists. split; [reflexivity|]. split; [|split].
  - apply lookup_insert_eq.
  - intros name Hname. apply lookup_insert_ne. congruence.
  - unfold config, ret. change (default ∅ (Some ?m)) with m.
    rewrite insert_insert_eq. reflexivity.
Qed.

(** X20. The project name is never empty and holds no path separator: it is
    the last non-empty component of the worktree path, whether that component
    starts the path or follows a slash or a backslash, trailing separators
    being ignored; it is [unknown-project] when the path has separators only
    or there is no worktree; and every path has one of these shapes. *)
Theorem projectName_is_last_component (ctx : Ctx) :
  (JsString.truthy (projectName ctx) = true /\ has_separator (projectName ctx) = false)
  /\ (forall dir sep name trail,
        JsString.is_separator sep = true ->
        JsString.truthy name = true -> has_separator name = false ->
        only_separators trail = true ->
        projectName (ctx_at (Some (dir +:+ String sep (name +:+ trail))) ctx) = name)
  /\ (forall name trail,
        JsString.truthy name = true -> has_separator name = false ->
        only_separators trail = true ->
        projectName (ctx_at (Some (name +:+ trail)) ctx) = name)
  /\ (forall trail, only_separators trail = true ->
        projectName (ctx_at (Some trail) ctx) = "unknown-project")
  /\ projectName (ctx_at None ctx) = "unknown-project"
  /\ (forall path,
        only_separators path = true
        \/ (exists name trail,
              path = name +:+ trail
              /\ JsString.truthy name = true /\ has_separator name = false
              /\ only_separators trail = true)
        \/ (exists dir sep name trail,
              path = dir +:+ String sep (name +:+ trail)
              /\ JsString.is_separator sep = true
              /\ JsString.truthy name = true /\ has_separator name = false
              /\ only_separators trail = true)).
Proof.
  split; [|split; [|split; [|split; [|split]]]].
  - unfold projectName. destruct (worktree ctx) as [path|]; [|split; reflexivity].
    destruct (JsString.truthy path); [|split; reflexivity].
    destruct (JsString.findLast_truthy (JsString.split_path path)) as [seg|] eqn:Hseg;
      [|split; reflexivity].
    apply findLast_truthy_spec in Hseg as [Ht Hin]. split; [exact Ht|].
    pose proof (split_path_segments path) as Hall.
    rewrite List.Forall_forall in Hall. apply Hall, Hin.
  - intros dir sep name trail Hc Hname Hsep Htrail.
    unfold projectName, ctx_at. cbn [worktree].
    assert (Hpath : JsString.truthy (dir +:+ String sep (name +:+ trail)) = true).
    { destruct dir; reflexivity. }
    rewrite Hpath, split_path_app by exact Hc.
    unfold JsString.findLast_truthy.
    rewrite List.filter_app, (split_path_name name trail Hname Hsep Htrail), last_snoc.
    reflexivity.
  - intros name trail Hname Hsep Htrail.
    unfold projectName, ctx_at. cbn [worktree].
    rewrite (truthy_append name trail Hname).
    unfold JsString.findLast_truthy.
    rewrite (split_path_name name trail Hname Hsep Htrail). reflexivity.
  - intros trail Htrail. unfold projectName, ctx_at. cbn [worktree].
    destruct (JsString.truthy trail); [|reflexivity].
    unfold JsString.findLast_truthy. rewrite (split_path_separators trail Htrail).
    reflexivity.
  - reflexivity.
  - apply path_shape.
Qed.

(** A Windows path, whose last component follows a backslash; and a bare
    name. *)
Lemma projectName_is_last_component_witness :
  projectName (ctx_at (Some ("C:\Users\me" +:+ String "\" ("demo" +:+ "\/"))) ctx_online)
  = "demo"
  /\ projectName (ctx_at (Some ("demo" +:+ EmptyString)) ctx_online) = "demo".
Proof.
  split.
  - apply (proj1 (proj2 (projectName_is_last_component ctx_online))
             "C:\Users\me" "\"%char "demo" "\/"); reflexivity.
  - apply (proj1 (proj2 (proj2 (projectName_is_last_component ctx_online)))
             "demo" EmptyString); reflexivity.
Defined.

(** X21. [extractTextFromParts] only reads the text parts: the parts whose
    type is not [text] or whose text is no string can be removed without
    changing the result; missing parts and a list without text parts give the
    empty string. *)
Theorem extractText_ignores_other_parts (ps : list Part) :
  extractTextFromParts (Some ps) = extractTextFromParts (Some (List.filter is_text_part ps))
  /\ (List.filter is_text_part ps = [] -> extractTextFromParts (Some ps) = EmptyString)
  /\ extractTextFromParts None = EmptyString.
Proof.
  assert (H : extractTextFromParts (Some ps)
              = extractTextFromParts (Some (List.filter is_text_part ps))).
  { unfold extractTextFromParts. rewrite omap_text_filter. reflexivity. }
  split; [exact H|]. split; [|reflexivity].
  intros Hnone. rewrite H, Hnone. reflexivity.
Qed.

Lemma extractText_ignores_other_parts_witness :
  extractTextFromParts
    (Some [{| part_type := "tool"; part_text := Some "ls" |};
           {| part_type := "text"; part_text := None |}])
  = EmptyString.
Proof.
  apply (proj1 (proj2 (extractText_ignores_other_parts
           [{| part_type := "tool"; part_text := Some "ls" |};
            {| part_type := "text"; part_text := None |}]))).
  reflexivity.
Defined.

(** X22. [sendStatusMessage] never throws and leaves the tracker alone: it
    sends the text as a prompt of the session and, when that call throws,
    falls back on one [info] toast whose message is a prefix of the text, the
    whole text when it is short (up to 100 bytes). *)
Theorem sendStatusMessage_falls_back (ctx : Ctx) (sessionId text : string) (w : World) :
  sendStatusMessage ctx sessionId text w
  = (Ok tt,
     {| st := st w;
        trace := trace w ++ status_calls ctx (length (trace w)) sessionId text |})
  /\ (exists rest, text = JsString.slice_prefix 200 text +:+ rest)
  /\ (String.length text <= 100 -> JsString.slice_prefix 200 text = text).
Proof.
  split; [apply sendStatusMessage_eq|].
  split; [apply slice_prefix_is_prefix|].
  intros Hlen. apply slice_prefix_short. lia.
Qed.

Lemma sendStatusMessage_falls_back_witness :
  JsString.slice_prefix 200 offline_notice = offline_notice.
Proof.
  apply (proj2 (proj2 (sendStatusMessage_falls_back ctx_host_down "s1" offline_notice
                         init_world))).
  vm_compute. lia.
Defined.

(** X23. The [/memory] command with the worker known to be down: in every
    world a run of hooks reaches in which the health flag is [false], the
    command shows the offline notice as a status message of the session, makes
    no request to the worker, leaves the tracker as it was, and signals
    [__MEMORY_HANDLED__]. *)
Theorem memory_command_offline (ctx : Ctx) (calls : list HookCall) (w : World)
    (sessionID : option string) (sessionId : string) :
  w = run_hooks ctx calls init_world ->
  workerHealthy (st w) = Some false ->
  or_str sessionID (currentSessionId (st w)) = Some sessionId ->
  JsString.truthy sessionId = true ->
  command_execute_before ctx "memory" sessionID w
  = (Throw "__MEMORY_HANDLED__",
     {| st := st w;
        trace := trace w ++ status_calls ctx (length (trace w)) sessionId offline_notice |}).
Proof.
  intros Hw Hflag Hsid Htruthy.
  pose proof (tracker_inv_run ctx calls) as [_ Hshown]. rewrite <- Hw in Hshown.
  clear Hw calls.
  destruct w as [[cache flag shown current initialized] tr].
  cbn [st workerHealthy initToastShown currentSessionId trace] in *. subst flag.
  destruct Hshown as [Hshown|Hshown]; [discriminate Hshown|]. subst shown.
  unfold command_execute_before, bind, gets, throw.
  cbn [String.eqb Ascii.eqb Bool.eqb negb st currentSessionId]. rewrite Hsid, Htruthy.
  cbn [negb]. unfold checkWorkerAndToast, bind, gets, ret.
  cbn [st workerHealthy initToastShown negb truthy_flag].
  rewrite sendStatusMessage_eq. reflexivity.
Qed.

Lemma memory_command_offline_witness :
  command_execute_before ctx_offline "memory" None (session_announced ctx_offline)
  = (Throw "__MEMORY_HANDLED__",
     {| st := st (session_announced ctx_offline);
        trace := trace (session_announced ctx_offline)
                 ++ status_calls ctx_offline (length (trace (session_announced ctx_offline)))
                      "s1" offline_notice |}).
Proof.
  apply (memory_command_offline ctx_offline [CallEvent (session_created "s1")]
           (session_announced ctx_offline) None "s1"); reflexivity.
Defined.

(** X24. The [/memory] command with a healthy worker and a cached context: in
    every world a run of hooks reaches in which the health flag is [true] and
    the cache holds a value, the command shows that context (or the
    no-context notice when it is [null] or empty) as a status message of the
    session, makes no request to the worker, leaves the tracker as it was, and
    signals [__MEMORY_HANDLED__]. *)
Theorem memory_command_shows_cached_context (ctx : Ctx) (calls : list HookCall)
    (w : World) (sessionID : option string) (sessionId : string)
    (context : option string) :
  w = run_hooks ctx calls init_world ->
  workerHealthy (st w) = Some true ->
  contextCache (st w) = Some context ->
  or_str sessionID (currentSessionId (st w)) = Some sessionId ->
  JsString.truthy sessionId = true ->
  command_execute_before ctx "memory" sessionID w
  = (Throw "__MEMORY_HANDLED__",
     {| st := st w;
        trace := trace w ++ status_calls ctx (length (trace w)) sessionId
                              (context_notice ctx context) |}).
Proof.
  intros Hw Hflag Hcache Hsid Htruthy.
  pose proof (tracker_inv_run ctx calls) as [_ Hshown]. rewrite <- Hw in Hshown.
  clear Hw calls.
  destruct w as [[cache flag shown current initialized] tr].
  cbn [st workerHealthy initToastShown currentSessionId contextCache trace] in *.
  subst flag cache.
  destruct Hshown as [Hshown|Hshown]; [discriminate Hshown|]. subst shown.
  unfold command_execute_before, bind, gets, throw.
  cbn [String.eqb Ascii.eqb Bool.eqb negb st currentSessionId]. rewrite Hsid, Htruthy.
  cbn [negb]. unfold checkWorkerAndToast, getCachedContext, bind, gets, ret.
  cbn [st workerHealthy initToastShown negb truthy_flag contextCache].
  unfold context_notice, no_context_notice.
  destruct context as [text|]; [destruct (JsString.truthy text)|];
    rewrite sendStatusMessage_eq; reflexivity.
Qed.

Lemma memory_command_shows_cached_context_witness :
  command_execute_before (ctx_with_context "notes") "memory" (Some "s1")
    (after (system_transform (ctx_with_context "notes") (Some "s1") []) init_world)
  = (Throw "__MEMORY_HANDLED__",
     {| st := st (after (system_transform (ctx_with_context "notes") (Some "s1") [])
                    init_world);
        trace := trace (after (system_transform (ctx_with_context "notes") (Some "s1") [])
                          init_world)
                 ++ status_calls (ctx_with_context "notes")
                      (length (trace (after (system_transform (ctx_with_context "notes")
                                               (Some "s1") []) init_world)))
                      "s1" (context_notice (ctx_with_context "notes") (Some "notes")) |}).
Proof.
  apply (memory_command_shows_cached_context (ctx_with_context "notes")
           [CallSystemTransform (Some "s1") []]
           (after (system_transform (ctx_with_context "notes") (Some "s1") []) init_world)
           (Some "s1") "s1" (Some "notes")); reflexivity.
Defined.

(** X25. The text that [extractTextFromParts] returns is already trimmed
    (trimming it again changes nothing), and so is the prompt that a user
    message gives to the remote initialization, which moreover is never
    empty: a message of white space only counts as a message without text. *)
Theorem extracted_text_is_trimmed (output_parts : option (list Part)) :
  JsString.trim (extractTextFromParts output_parts) = extractTextFromParts output_parts
  /\ JsString.trim (chat_prompt output_parts) = chat_prompt output_parts
  /\ JsString.truthy (chat_prompt output_parts) = true.
Proof.
  assert (H : JsString.trim (extractTextFromParts output_parts)
              = extractTextFromParts output_parts).
  { destruct output_parts as [ps|]; [apply trim_fixed | reflexivity]. }
  split; [exact H|]. unfold chat_prompt. cbn zeta. split.
  - destruct (JsString.truthy (extractTextFromParts output_parts)) eqn:Ht;
      cbn [prompt_or_default]; [rewrite Ht; exact H | reflexivity].
  - apply prompt_or_default_truthy.
Qed.

(** X26. [checkWorkerAndToast] is memoized as a whole: a second call right
    after any call returns the same flag and leaves the world, trace
    included, as it was. *)
Theorem checkWorkerAndToast_is_memoized (ctx : Ctx) (w : World) :
  checkWorkerAndToast ctx (after (checkWorkerAndToast ctx) w)
  = (fst (checkWorkerAndToast ctx w), after (checkWorkerAndToast ctx) w).
Proof.
  assert (H : exists b, fst (checkWorkerAndToast ctx w) = Ok (Some b)
                        /\ workerHealthy (st (after (checkWorkerAndToast ctx) w)) = Some b).
  { change (wp (checkWorkerAndToast ctx)
              (fun r w' => exists b, r = Ok (Some b) /\ workerHealthy (st w') = Some b) w).
    destruct w as [[cache flag shown current initialized] tr].
    wp_run; wp_red; eexists; split; reflexivity. }
  destruct H as (b & Hr & Hflag). rewrite Hr.
  apply check_again; [exact Hflag | apply check_shows].
Qed.

(** X27. After a [session.created] event with an identifier, a tool execution
    that comes without a session identifier is recorded for that session. *)
Theorem tool_hook_falls_back_on_created_session (ctx : Ctx) (ev : Event) (w : World)
    (sessionId tool : string) (args : option JSON) (output : string) :
  event_type ev = "session.created" ->
  info_id ev = Some sessionId ->
  JsString.truthy sessionId = true ->
  last (trace (after (tool_execute_after ctx None tool args output)
                 (after (event ctx ev) w)))
  = Some (PostObservation sessionId tool (args_or_empty args) output (projectRoot ctx)).
Proof.
  intros Hty Hid Htruthy.
  destruct (created_tracks ctx ev w sessionId Hty Hid Htruthy) as (Hcur & _).
  apply tool_after_sends; [|exact Htruthy].
  unfold or_str. cbn [truthy_str]. exact Hcur.
Qed.

Lemma tool_hook_falls_back_on_created_session_witness :
  last (trace (after (tool_execute_after ctx_online None "bash" None "ok")
                 (after (event ctx_online (session_created "s1")) init_world)))
  = Some (PostObservation "s1" "bash" (args_or_empty None) "ok" (projectRoot ctx_online)).
Proof.
  apply (tool_hook_falls_back_on_created_session ctx_online (session_created "s1")
           init_world "s1" "bash" None "ok"); reflexivity.
Defined.

(** X28. With the worker known to be healthy, the session initialized (or no
    session given) and a context in the cache, the system-prompt transform
    makes no call at all: it leaves the world as it was and returns the
    prompt followed by the banner with the cached context, or the prompt
    alone when the cached context is [null] or empty. *)
Theorem system_transform_uses_cache (ctx : Ctx) (calls : list HookCall) (w : World)
    (sessionID : option string) (system : list string) (context : option string) :
  w = run_hooks ctx calls init_world ->
  workerHealthy (st w) = Some true ->
  contextCache (st w) = Some context ->
  (forall sessionId, sessionID = Some sessionId -> JsString.truthy sessionId = true ->
     sessionId ∈ initializedSessions (st w)) ->
  system_transform ctx sessionID system w
  = (Ok match context with
        | Some text => if JsString.truthy text then system ++ [banner text] else system
        | None => system
        end, w).
Proof.
  intros Hw Hflag Hcache Hinit.
  pose proof (tracker_inv_run ctx calls) as [_ Hshown]. rewrite <- Hw in Hshown.
  clear Hw calls.
  destruct w as [[cache flag shown current initialized] tr].
  cbn [st workerHealthy initToastShown contextCache initializedSessions] in *.
  subst flag cache.
  destruct Hshown as [Hshown|Hshown]; [discriminate Hshown|]. subst shown.
  apply wp_eq.
  destruct sessionID as [s|]; [destruct (JsString.truthy s) eqn:Hs|].
  - assert (Hmem : bool_decide (s ∈ initialized) = true)
      by (apply bool_decide_eq_true_2, Hinit; [reflexivity | exact Hs]).
    wp_run; split; reflexivity.
  - wp_run; split; reflexivity.
  - wp_run; split; reflexivity.
Qed.

Lemma system_transform_uses_cache_witness :
  system_transform (ctx_with_context "notes") (Some "s1") ["You are helpful."]
    (after (system_transform (ctx_with_context "notes") (Some "s1") []) init_world)
  = (Ok (["You are helpful."] ++ [banner "notes"]),
     after (system_transform (ctx_with_context "notes") (Some "s1") []) init_world).
Proof.
  apply (system_transform_uses_cache (ctx_with_context "notes")
           [CallSystemTransform (Some "s1") []]
           (after (system_transform (ctx_with_context "notes") (Some "s1") []) init_world)
           (Some "s1") ["You are helpful."] (Some "notes")).
  - reflexivity.
  - reflexivity.
  - reflexivity.
  - intros sessionId Hsid _. injection Hsid as <-.
    refine (bool_decide_unpack _ _). vm_compute. exact I.
Defined.

(** X29. Hook invocations that do not overlap probe the worker once. A call
    of [checkWorkerAndToast] that runs to its end leaves the health flag
    determined; once the flag is [true] or [false], neither such a call nor
    any run of hooks that follow one another ([run_hooks]) probes again or
    changes it; and such a run from the initial state makes at most one
    probe. *)
Theorem serial_hooks_probe_once (ctx : Ctx) :
  (forall w, exists b, workerHealthy (st (after (checkWorkerAndToast ctx) w)) = Some b)
  /\ (forall w b, workerHealthy (st w) = Some b ->
        let w' := after (checkWorkerAndToast ctx) w in
        workerHealthy (st w') = Some b
        /\ count is_health_probe (trace w') = count is_health_probe (trace w))
  /\ (forall calls w b, workerHealthy (st w) = Some b ->
        let w' := run_hooks ctx calls w in
        workerHealthy (st w') = Some b
        /\ count is_health_probe (trace w') = count is_health_probe (trace w))
  /\ (forall calls, count is_health_probe (trace (run_hooks ctx calls init_world)) <= 1).
Proof.
  split; [apply check_determines|].
  split; [|split].
  - intros w b Hb. destruct (health_step_check ctx w) as (H1 & H3).
    cbn zeta. rewrite (H3 b Hb) in *. rewrite Hb in H1. cbn in H1. split; [reflexivity | lia].
  - intros calls w b Hb. destruct (health_step_run ctx calls w) as (H1 & H3).
    cbn zeta. rewrite (H3 b Hb) in *. rewrite Hb in H1. cbn in H1. split; [reflexivity | lia].
  - intros calls. destruct (health_step_run ctx calls init_world) as (H1 & _).
    cbn in H1. lia.
Qed.

(** The worker goes away after the first probe, and the flag stays [true]. *)
Lemma serial_hooks_probe_once_witness :
  workerHealthy (st (run_hooks ctx_init_fails later_calls (first_check ctx_init_fails)))
  = Some true
  /\ count is_health_probe
       (trace (run_hooks ctx_init_fails later_calls (first_check ctx_init_fails)))
     = count is_health_probe (trace (first_check ctx_init_fails)).
Proof.
  apply (proj1 (proj2 (proj2 (serial_hooks_probe_once ctx_init_fails)))
           later_calls (first_check ctx_init_fails) true).
  reflexivity.
Defined.

(** X30. Hook invocations that do not overlap fetch the context once between
    two invalidations. With the slot uninitialized, a call of
    [getCachedContext] that runs to its end makes the one request of
    [getContext] and stores and returns what [getContext] returns, [null]
    included; with a stored answer ([null] or a string) it returns that
    answer and leaves the world, trace included, as it was; hooks that follow
    one another ([run_hooks]) and are no [session.created] event with an
    identifier keep a stored answer and fetch nothing, and from any world
    they fetch at most once; a [session.created] event with an identifier
    resets the slot. *)
Theorem serial_hooks_fetch_once (ctx : Ctx) :
  (forall w, contextCache (st w) = None ->
     exists v,
       WorkerClient.getContext ctx (projectName ctx) w
       = (Ok v, push (GetContextInject (projectName ctx)) w)
       /\ getCachedContext ctx w
          = (Ok v, upd (set_contextCache (Some v))
                       (push (GetContextInject (projectName ctx)) w)))
  /\ (forall w v, contextCache (st w) = Some v -> getCachedContext ctx w = (Ok v, w))
  /\ (forall calls w v,
        Forall keeps_cache calls -> contextCache (st w) = Some v ->
        let w' := run_hooks ctx calls w in
        contextCache (st w') = Some v
        /\ count is_context_fetch (trace w') = count is_context_fetch (trace w))
  /\ (forall calls w,
        Forall keeps_cache calls ->
        count is_context_fetch (trace (run_hooks ctx calls w))
        <= count is_context_fetch (trace w) + 1)
  /\ (forall ev w,
        is_session_created ev = true -> contextCache (st (after (event ctx ev) w)) = None).
Proof.
  split; [apply cached_miss|].
  split; [intros w v; apply cached_hit|].
  split; [|split].
  - intros calls w v Hcalls Hv.
    destruct (cache_step_run ctx calls w Hcalls) as (H1 & H2 & H3).
    cbn zeta. rewrite (H3 v Hv) in *. rewrite Hv in H1. cbn in H1.
    split; [reflexivity | lia].
  - intros calls w Hcalls.
    destruct (cache_step_run ctx calls w Hcalls) as (H1 & _).
    destruct (contextCache (st w)); cbn in H1; lia.
  - intros ev w Hev. apply session_created_resets, Hev.
Qed.

(** The worker holds the context [notes]: the first call fetches and stores
    it, and the second call returns it without a request. *)
Lemma serial_hooks_fetch_once_witness :
  getCachedContext (ctx_with_context "notes") init_world
  = (Ok (Some "notes"),
     upd (set_contextCache (Some (Some "notes")))
         (push (GetContextInject "demo") init_world))
  /\ getCachedContext (ctx_with_context "notes")
       (after (getCachedContext (ctx_with_context "notes")) init_world)
     = (Ok (Some "notes"), after (getCachedContext (ctx_with_context "notes")) init_world).
Proof.
  split.
  - destruct (proj1 (serial_hooks_fetch_once (ctx_with_context "notes")) init_world eq_refl)
      as (v & Hfetch & Hcached).
    rewrite Hcached. vm_compute in Hfetch. injection Hfetch as <-. reflexivity.
  - apply (proj1 (proj2 (serial_hooks_fetch_once (ctx_with_context "notes")))
             (after (getCachedContext (ctx_with_context "notes")) init_world)
             (Some "notes")).
    reflexivity.
Defined.
